(** * sidechain: the BIP300/301 entry model and the mainchain RPC client

    A shallow embedding of [lib/sidechain/sidechain.js] (class
    [SidechainObject]) and of the mainchain client that follows it in the
    same source file (classes [MainchainClient] and [MainchainOptions]),
    over a small model of the JavaScript values the code manipulates. *)

From Stdlib Require Import ZArith QArith String Ascii List Bool Lia.
From stdpp Require Import base option gmap strings list.
Import ListNotations.

Local Open Scope string_scope.
Local Open Scope Z_scope.

(** ** JavaScript values *)

(** A number is NaN, an infinity or a finite value.  Finite values are kept
    as exact rationals: the code only tests their type and compares them. *)
Inductive number :=
| NaN
| Infinity (negative : bool)
| Finite (q : Q).

(** A string is the sequence of its code units (those below 256), so that
    its [length] is the length of the sequence.  Objects are identified by
    their address; [callable] tells functions (whose [typeof] is "function")
    from other objects, and [props] holds the data properties that a
    property read finds (own or inherited). *)
#[warnings="-register-all"]
Inductive value :=
| VUndefined
| VNull
| VBool (b : bool)
| VNum (n : number)
| VStr (s : string)
| VSymbol (id : nat)
| VBigInt (z : Z)
| VObj (addr : nat) (callable : bool) (props : gmap string value).

Definition num (z : Z) : value := VNum (Finite (inject_Z z)).

(** [typeof v] *)
Definition typeof (v : value) : string :=
  match v with
  | VUndefined => "undefined"
  | VNull => "object"
  | VBool _ => "boolean"
  | VNum _ => "number"
  | VStr _ => "string"
  | VSymbol _ => "symbol"
  | VBigInt _ => "bigint"
  | VObj _ true _ => "function"
  | VObj _ false _ => "object"
  end.

(** Truthiness, as tested by [if (v)] and by [assert(v)]. *)
Definition truthy (v : value) : bool :=
  match v with
  | VUndefined | VNull => false
  | VBool b => b
  | VNum NaN => false
  | VNum (Infinity _) => true
  | VNum (Finite q) => negb (Qeq_bool q 0)
  | VStr s => negb (String.eqb s "")
  | VBigInt z => negb (z =? 0)
  | VSymbol _ | VObj _ _ _ => true
  end.

(** [v != null]: false for [null] and [undefined] only. *)
Definition not_nullish (v : value) : bool :=
  match v with
  | VUndefined | VNull => false
  | _ => true
  end.

Definition number_eqb (a b : number) : bool :=
  match a, b with
  | Finite p, Finite q => Qeq_bool p q
  | Infinity s, Infinity t => Bool.eqb s t
  | _, _ => false
  end.

(** [a === b]: no conversion; objects are equal only to themselves. *)
Definition strict_eq (a b : value) : bool :=
  match a, b with
  | VUndefined, VUndefined | VNull, VNull => true
  | VBool x, VBool y => Bool.eqb x y
  | VNum x, VNum y => number_eqb x y
  | VStr x, VStr y => String.eqb x y
  | VSymbol x, VSymbol y => Nat.eqb x y
  | VBigInt x, VBigInt y => x =? y
  | VObj x _ _, VObj y _ _ => Nat.eqb x y
  | _, _ => false
  end.

(** ** Errors and the state-and-exception monad *)

Inductive error :=
| AssertionError               (* thrown by bsert's [assert] *)
| TypeError
| ReferenceError (name : string)
| RangeError                   (* call stack exhausted *)
| HostError (tag : string).    (* thrown by code outside this file *)

Inductive completion (A : Type) :=
| Normal (a : A)
| Throw (e : error).
Arguments Normal {A} a.
Arguments Throw {A} e.

(** A computation over a mutable state [S]: what it has written stays
    written when it throws. *)
Definition M (S A : Type) : Type := S -> S * completion A.

Definition ret {S A} (a : A) : M S A := fun s => (s, Normal a).
Definition throw {S A} (e : error) : M S A := fun s => (s, Throw e).
Definition bind {S A B} (m : M S A) (k : A -> M S B) : M S B :=
  fun s => match m s with
           | (s', Normal a) => k a s'
           | (s', Throw e) => (s', Throw e)
           end.
Definition get_state {S} : M S S := fun s => (s, Normal s).
Definition modify {S} (f : S -> S) : M S unit := fun s => (f s, Normal tt).
Definition lift {S A} (c : completion A) : M S A := fun s => (s, c).

Declare Scope js_scope.
Delimit Scope js_scope with js.
Notation "x <- m ;; k" := (bind m (fun x => k))
  (at level 100, m at next level, right associativity) : js_scope.
Notation "m ;; k" := (bind m (fun _ => k))
  (at level 100, right associativity) : js_scope.
Local Open Scope js_scope.

(** [if (c) stmt] with no else branch *)
Definition when {S} (c : bool) (stmt : M S unit) : M S unit :=
  if c then stmt else ret tt.

(** bsert's [assert(ok)] *)
Definition assert {S} (ok : bool) : M S unit :=
  if ok then ret tt else throw AssertionError.

(** [v.k]: a property read, for the names that the source reads.  Reading
    from [undefined] or [null] throws; a string has its [length]; an object
    yields the property or [undefined]; the other primitive values have
    none of these names. *)
Definition get_prop (v : value) (k : string) : completion value :=
  match v with
  | VUndefined | VNull => Throw TypeError
  | VStr s =>
      if String.eqb k "length" then Normal (num (Z.of_nat (String.length s)))
      else Normal VUndefined
  | VObj _ _ props => Normal (default VUndefined (props !! k))
  | _ => Normal VUndefined
  end.

Definition read {S} (v : value) (k : string) : M S value := lift (get_prop v k).

(** ** Conversions to numbers and relational comparison *)

Definition code (a : ascii) : Z := Z.of_N (N_of_ascii a).

(** White space and line terminators among the code units below 256. *)
Definition is_white (a : ascii) : bool :=
  existsb (Z.eqb (code a)) [9; 10; 11; 12; 13; 32; 160]%Z.

Fixpoint trim_left (s : string) : string :=
  match s with
  | String a r => if is_white a then trim_left r else s
  | EmptyString => s
  end.

Fixpoint reverse_onto (s acc : string) : string :=
  match s with
  | String a r => reverse_onto r (String a acc)
  | EmptyString => acc
  end.

Definition trim (s : string) : string :=
  reverse_onto (trim_left (reverse_onto (trim_left s) "")) "".

Definition digit_in (base : Z) (a : ascii) : option Z :=
  let n := code a in
  let d := if (48 <=? n) && (n <=? 57) then n - 48
           else if (97 <=? n) && (n <=? 102) then n - 87
           else if (65 <=? n) && (n <=? 70) then n - 55
           else base in
  if d <? base then Some d else None.

(** Reads the longest prefix of digits: its value on top of [acc], how many
    digits there were, and what follows them. *)
Fixpoint digits (base : Z) (s : string) (acc : Z) (count : nat)
  : Z * nat * string :=
  match s with
  | String a r =>
      match digit_in base a with
      | Some d => digits base r (acc * base + d) (S count)
      | None => (acc, count, s)
      end
  | EmptyString => (acc, count, s)
  end.

Definition signed (s : string) : bool * string :=
  match s with
  | String "+" r => (false, r)
  | String "-" r => (true, r)
  | _ => (false, s)
  end.

(** [0x..], [0o..] and [0b..] literals: [None] when [s] has no such prefix,
    [Some None] when the prefix is followed by something else than digits. *)
Definition nondecimal (s : string) : option (option Z) :=
  match s with
  | String "0" (String x r) =>
      let base := if existsb (Ascii.eqb x) ["x"; "X"]%char then 16
                  else if existsb (Ascii.eqb x) ["o"; "O"]%char then 8
                  else if existsb (Ascii.eqb x) ["b"; "B"]%char then 2
                  else 0 in
      if base =? 0 then None
      else match digits base r 0 0 with
           | (n, S _, EmptyString) => Some (Some n)
           | _ => Some None
           end
  | _ => None
  end.

Definition exponent (s : string) : option Z :=
  match s with
  | EmptyString => Some 0
  | String c r =>
      if existsb (Ascii.eqb c) ["e"; "E"]%char then
        let '(neg, r') := signed r in
        match digits 10 r' 0 0 with
        | (e, S _, EmptyString) => Some (if neg then - e else e)
        | _ => None
        end
      else None
  end.

Definition unsigned_decimal (s : string) : option number :=
  if String.eqb s "Infinity" then Some (Infinity false) else
  let '(int, ni, r1) := digits 10 s 0 0 in
  let '(mant, nf, r2) :=
    match r1 with
    | String "." r => digits 10 r int 0
    | _ => (int, 0%nat, r1)
    end in
  match (ni + nf)%nat, exponent r2 with
  | S _, Some e =>
      Some (Finite (inject_Z mant * Qpower (inject_Z 10) (e - Z.of_nat nf)))
  | _, _ => None
  end.

Definition negate (n : number) : number :=
  match n with
  | NaN => NaN
  | Infinity s => Infinity (negb s)
  | Finite q => Finite (- q)
  end.

(** The number a string converts to: NaN unless the trimmed string is empty
    or a numeric literal.  The value of a literal is kept exact and is not
    rounded to a double: a literal too small for a double, which the code
    reads as zero, stays different from zero here. *)
Definition StringToNumber (s : string) : number :=
  let t := trim s in
  if String.eqb t "" then Finite 0 else
  match nondecimal t with
  | Some r => match r with Some n => Finite (inject_Z n) | None => NaN end
  | None =>
      let '(neg, u) := signed t in
      match unsigned_decimal u with
      | Some n => if neg then negate n else n
      | None => NaN
      end
  end.

Definition StringToBigInt (s : string) : option Z :=
  let t := trim s in
  if String.eqb t "" then Some 0 else
  match nondecimal t with
  | Some r => r
  | None =>
      let '(neg, u) := signed t in
      match digits 10 u 0 0 with
      | (n, S _, EmptyString) => Some (if neg then - n else n)
      | _ => None
      end
  end.

Inductive numeric :=
| NumberOf (n : number)
| BigIntOf (z : Z).

(** ToNumeric on a primitive value; a symbol does not convert. *)
Definition ToNumeric (v : value) : completion numeric :=
  match v with
  | VUndefined => Normal (NumberOf NaN)
  | VNull => Normal (NumberOf (Finite 0))
  | VBool b => Normal (NumberOf (Finite (if b then 1 else 0)))
  | VNum n => Normal (NumberOf n)
  | VStr s => Normal (NumberOf (StringToNumber s))
  | VBigInt z => Normal (BigIntOf z)
  | VSymbol _ | VObj _ _ _ => Throw TypeError
  end.

(** [a < b] on numbers; [None] is the undefined result that NaN gives. *)
Definition number_lt (a b : number) : option bool :=
  match a, b with
  | NaN, _ | _, NaN => None
  | Infinity s, Infinity t => Some (s && negb t)
  | Infinity s, Finite _ => Some s
  | Finite _, Infinity t => Some (negb t)
  | Finite p, Finite q => Some (negb (Qle_bool q p))
  end.

Definition as_number (n : numeric) : number :=
  match n with
  | NumberOf x => x
  | BigIntOf z => Finite (inject_Z z)
  end.

Fixpoint string_lt (a b : string) : bool :=
  match a, b with
  | _, EmptyString => false
  | EmptyString, String _ _ => true
  | String x r, String y t =>
      if code x <? code y then true
      else if code y <? code x then false
      else string_lt r t
  end.

(** IsLessThan on two primitive values. *)
Definition less_than (a b : value) : completion (option bool) :=
  match a, b with
  | VStr x, VStr y => Normal (Some (string_lt x y))
  | VBigInt x, VStr y => Normal (Z.ltb x <$> StringToBigInt y)
  | VStr x, VBigInt y => Normal ((fun n => Z.ltb n y) <$> StringToBigInt x)
  | _, _ =>
      match ToNumeric a with
      | Throw e => Throw e
      | Normal na =>
          match ToNumeric b with
          | Throw e => Throw e
          | Normal nb => Normal (number_lt (as_number na) (as_number nb))
          end
      end
  end.

(** ** What the source imports

    The modules, constants and classes that the two classes [require] and
    that are not part of the source file, and the conversion that an object
    defines for itself. *)
Record imports := {
  (* ToPrimitive with hint number, for an object operand of [>=] *)
  ToPrimitive : value -> completion value;
  (* Buffer.isBuffer *)
  isBuffer : value -> bool;
  (* require('../blockchain/common') and require('../protocol/consensus'),
     by property name *)
  common : gmap string value;
  consensus : gmap string value;
  (* const EMPTY = Buffer.alloc(0) *)
  EMPTY : value;
  (* what an instance of Script inherits from its class *)
  Script_prototype : gmap string value;
  (* Network.get('regtest'), which the module binds to [network] *)
  regtest : value;
  (* Amount: the internal value [new Amount(v)] computes from [v], or the
     error it throws, and the string [toString()] renders it as *)
  Amount_fromOptions : value -> completion value;
  Amount_toString : value -> value;
  (* the properties of the socket that bcurl's Client creates *)
  Client_socket : gmap string value
}.

(** [m.k] for an imported module [m] *)
Definition member (m : gmap string value) (k : string) : value :=
  default VUndefined (m !! k).

(** [a >= b]: both operands are made primitive, then [a >= b] holds when
    [a < b] is false; an undefined comparison (NaN) makes it false. *)
Definition primitive (env : imports) (v : value) : completion value :=
  match v with
  | VObj _ _ _ =>
      match ToPrimitive env v with
      | Normal (VObj _ _ _) => Throw TypeError
      | r => r
      end
  | _ => Normal v
  end.

Definition ge {S} (env : imports) (a b : value) : M S bool :=
  pa <- lift (primitive env a);;
  pb <- lift (primitive env b);;
  r <- lift (less_than pa pb);;
  ret (match r with Some false => true | _ => false end).

(** ** The run-time state shared by all objects *)

Record rpc_call := {
  endpoint : string;
  method : string;
  params : list value
}.

(** The functions passed to [then] in the source. *)
Inductive callback :=
| set_blocks (x : nat).   (* (value) => { blocks = value } in isConnected,
                             for the variable [blocks] of that call *)

(** How a promise gets settled. *)
Inductive plan :=
| ResolvedWith (v : value)     (* fulfilled with [v], or follows promise [v] *)
| RejectedWith (e : error)
| AwaitsReply (call : nat)     (* settled by the transport's reply to a call *)
| ThenOf (parent : nat) (cb : callback).

Record runtime := {
  next_addr : nat;                 (* the next fresh address *)
  promises : gmap nat plan;        (* the promises created so far *)
  dispatched : list rpc_call;      (* the RPC calls handed to the transport *)
  variables : gmap nat value       (* the local variables that callbacks write *)
}.

Definition set_next_addr (n : nat) (r : runtime) : runtime :=
  {| next_addr := n; promises := promises r; dispatched := dispatched r;
     variables := variables r |}.
Definition set_promises (ps : gmap nat plan) (r : runtime) : runtime :=
  {| next_addr := next_addr r; promises := ps; dispatched := dispatched r;
     variables := variables r |}.
Definition set_dispatched (l : list rpc_call) (r : runtime) : runtime :=
  {| next_addr := next_addr r; promises := promises r; dispatched := l;
     variables := variables r |}.
Definition set_variables (vs : gmap nat value) (r : runtime) : runtime :=
  {| next_addr := next_addr r; promises := promises r;
     dispatched := dispatched r; variables := vs |}.

(** The state a method runs in: its receiver and the run-time state. *)
Record world (T : Type) := {
  this : T;
  rt : runtime
}.
Arguments this {T} w.
Arguments rt {T} w.

(** [this.f = v], for the setter of field [f] *)
Definition assign {T} (set : value -> T -> T) (v : value) : M (world T) unit :=
  modify (fun w => {| this := set v (this w); rt := rt w |}).

Definition with_runtime {T} (f : runtime -> runtime) : M (world T) unit :=
  modify (fun w => {| this := this w; rt := f (rt w) |}).

(** A fresh address. *)
Definition fresh {T} : M (world T) nat :=
  w <- get_state;;
  with_runtime (fun r => set_next_addr (S (next_addr r)) r);;
  ret (next_addr (rt w)).

(** An object literal or [new C()] for an imported class: a fresh object. *)
Definition new_object {T} (props : gmap string value) : M (world T) value :=
  a <- fresh;;
  ret (VObj a false props).

(** Runs a constructor body on the receiver [init]; the new object is the
    receiver as the body leaves it, unless the body throws. *)
Definition construct {T U} (init : T) (body : M (world T) unit) : M (world U) T :=
  fun u =>
    match body {| this := init; rt := rt u |} with
    | (w, Normal _) => ({| this := this u; rt := rt w |}, Normal (this w))
    | (w, Throw e) => ({| this := this u; rt := rt w |}, Throw e)
    end.

(** [o.k = v] in strict mode, giving the object as updated: only an object
    takes the assignment. *)
Definition set_prop (o : value) (k : string) (v : value) : completion value :=
  match o with
  | VObj a c props => Normal (VObj a c (<[k := v]> props))
  | _ => Throw TypeError
  end.

(** [a && b] and [a || b] on conditions: [b] is evaluated only if needed. *)
Definition and_then {S} (a : bool) (b : M S bool) : M S bool :=
  if a then b else ret false.
Definition or_else {S} (a : bool) (b : M S bool) : M S bool :=
  if a then ret true else b.

(** [v.length === n] *)
Definition length_is {S} (v : value) (n : Z) : M S bool :=
  l <- read v "length";;
  ret (strict_eq l (num n)).

Definition new_promise {T} (p : plan) : M (world T) value :=
  a <- fresh;;
  with_runtime (fun r => set_promises (<[a := p]> (promises r)) r);;
  ret (VObj a false ∅).

(** Calling an [async] function that has no [await]: the body runs at once,
    and what it returns or throws settles the promise that the call
    returns. *)
Definition async {T} (body : M (world T) value) : M (world T) value :=
  fun w =>
    match body w with
    | (w', Normal v) => new_promise (ResolvedWith v) w'
    | (w', Throw e) => new_promise (RejectedWith e) w'
    end.

(** [p.then(cb)]: a new promise, settled after [p] by running [cb]. *)
Definition promise_then {T} (p : value) (cb : callback) : M (world T) value :=
  w <- get_state;;
  match p with
  | VObj a _ _ =>
      match promises (rt w) !! a with
      | Some _ => new_promise (ThenOf a cb)
      | None => throw TypeError
      end
  | _ => throw TypeError
  end.

(** Modelled from the spec: [execute] is the method of bcurl's [Client] that
    the client inherits, which is not part of the source.  It hands one call
    (endpoint, method name, positional parameters) to the transport and
    returns the promise of the reply. *)
Definition execute {T} (endpoint method : string) (params : list value)
  : M (world T) value :=
  w <- get_state;;
  with_runtime (fun r => set_dispatched
                          (dispatched r ++ [{| endpoint := endpoint;
                                               method := method;
                                               params := params |}]) r);;
  new_promise (AwaitsReply (length (dispatched (rt w)))).

(** A local variable that a callback captures lives at an address of its
    own: [let x] declares it, [x = v] writes it and [x] reads it. *)
Definition declare {T} : M (world T) nat := fresh.

Definition write {T} (x : nat) (v : value) : M (world T) unit :=
  with_runtime (fun r => set_variables (<[x := v]> (variables r)) r).

Definition variable {T} (x : nat) : M (world T) value :=
  w <- get_state;;
  ret (default VUndefined (variables (rt w) !! x)).

(** *** How promises settle *)

Inductive outcome :=
| Fulfilled (v : value)
| Rejected (e : error).

(** What a callback returns when run on the value of its promise. *)
Definition callback_result (cb : callback) (v : value) : value :=
  match cb with
  | set_blocks _ => VUndefined
  end.

(** The outcome of the promise (or plain value) [v] once the transport has
    answered call number [n] with [reply n].  A promise only refers to
    promises created before it, so [fuel] above the number of promises is
    enough. *)
Fixpoint outcome_of (fuel : nat) (reply : nat -> outcome)
    (ps : gmap nat plan) (v : value) : option outcome :=
  match fuel with
  | O => None
  | S fuel =>
      match v with
      | VObj a c props =>
          match ps !! a with
          | None => Some (Fulfilled v)
          | Some (ResolvedWith v') => outcome_of fuel reply ps v'
          | Some (RejectedWith e) => Some (Rejected e)
          | Some (AwaitsReply n) => Some (reply n)
          | Some (ThenOf parent cb) =>
              match outcome_of fuel reply ps (VObj parent false ∅) with
              | Some (Fulfilled x) => Some (Fulfilled (callback_result cb x))
              | r => r
              end
          end
      | _ => Some (Fulfilled v)
      end
  end.

(** Runs the callback registered by promise [a], if there is one and its
    parent is fulfilled. *)
Definition react (reply : nat -> outcome) (r : runtime) (a : nat) : runtime :=
  match promises r !! a with
  | Some (ThenOf parent (set_blocks x)) =>
      match outcome_of (S (next_addr r)) reply (promises r) (VObj parent false ∅) with
      | Some (Fulfilled v) => set_variables (<[x := v]> (variables r)) r
      | _ => r
      end
  | _ => r
  end.

(** The run-time state after the replies have come in and every callback
    has run, in the order the promises were created. *)
Definition deliver (reply : nat -> outcome) (r : runtime) : runtime :=
  fold_left (react reply) (seq 0 (next_addr r)) r.

(** ** sidechain.js: class SidechainObject *)

Module SidechainObject.

Record instance := {
  sidechain : value;
  hash : value;
  script : value;
  type : value;
  version : value
}.

Definition set_sidechain (v : value) (o : instance) : instance :=
  {| sidechain := v; hash := hash o; script := script o; type := type o;
     version := version o |}.
Definition set_hash (v : value) (o : instance) : instance :=
  {| sidechain := sidechain o; hash := v; script := script o; type := type o;
     version := version o |}.
Definition set_script (v : value) (o : instance) : instance :=
  {| sidechain := sidechain o; hash := hash o; script := v; type := type o;
     version := version o |}.
Definition set_type (v : value) (o : instance) : instance :=
  {| sidechain := sidechain o; hash := hash o; script := script o; type := v;
     version := version o |}.
Definition set_version (v : value) (o : instance) : instance :=
  {| sidechain := sidechain o; hash := hash o; script := script o; type := type o;
     version := v |}.

(** The identifiers that the body of [fromOptions] can resolve: its
    parameter and the bindings of the module (Node's globals apart). *)
Definition scope : list string :=
  ["options"; "assert"; "common"; "layout"; "Script"; "SHA256"; "EMPTY";
   "inspectSymbol"; "SidechainObject"].

(** Evaluates the identifier [x], bound to [v] if it is bound at all. *)
Definition identifier {S} (x : string) (v : value) : M S value :=
  if existsb (String.eqb x) scope then ret v else throw (ReferenceError x).

Section WithImports.
Context (env : imports).

(** [fromOptions(options)].  No [if] of the source has braces, so each
    guards the [assert] alone. *)
Definition fromOptions (options : value) : M (world instance) instance :=
  v <- read options "sidechain";;
  when (not_nullish v)
    (v <- read options "sidechain";; assert (String.eqb (typeof v) "number"));;
  v <- read options "sidechain";; assign set_sidechain v;;

  v <- read options "hash";;
  when (not_nullish v)
    (h <- identifier "hash" VUndefined;; assert (isBuffer env h));;
  v <- read options "hash";; assign set_hash v;;

  v <- read options "script";;
  when (not_nullish v)
    (v <- read options "script";; assert (String.eqb (typeof v) "object"));;
  v <- read options "script";; assign set_script v;;

  v <- read options "type";;
  when (not_nullish v)
    (v <- read options "type";; assert (String.eqb (typeof v) "number"));;
  v <- read options "type";; assign set_type v;;

  v <- read options "version";;
  when (not_nullish v)
    (v <- read options "version";; assert (String.eqb (typeof v) "number"));;
  v <- read options "version";; assign set_version v;;

  v <- read options "sidechain";; assign set_sidechain v;;
  v <- read options "hash";; assign set_hash v;;
  v <- read options "script";; assign set_script v;;
  v <- read options "type";; assign set_type v;;
  v <- read options "version";; assign set_version v;;

  w <- get_state;;
  ret (this w).

(** The receiver before the constructor has assigned anything: every
    property still reads as [undefined]. *)
Definition blank : instance :=
  {| sidechain := VUndefined; hash := VUndefined; script := VUndefined;
     type := VUndefined; version := VUndefined |}.

(** [new SidechainObject(options)] *)
Definition constructor {U} (options : value) : M (world U) instance :=
  construct blank
    (assign set_sidechain (member (common env) "THIS_SIDECHAIN");;
     assign set_hash (EMPTY env);;
     s <- new_object (Script_prototype env);; assign set_script s;;
     assign set_type (num (-1));;
     assign set_version (num (-1));;
     when (truthy options) (fromOptions options;; ret tt)).

End WithImports.
End SidechainObject.

(** ** mainchain.js: class MainchainOptions *)

Module MainchainOptions.

Record instance := {
  network : value;
  port : value;
  headers : value;
  host : value;
  username : value;
  password : value
}.

Definition set_network (v : value) (o : instance) : instance :=
  {| network := v; port := port o; headers := headers o; host := host o;
     username := username o; password := password o |}.
Definition set_port (v : value) (o : instance) : instance :=
  {| network := network o; port := v; headers := headers o; host := host o;
     username := username o; password := password o |}.
Definition set_headers (v : value) (o : instance) : instance :=
  {| network := network o; port := port o; headers := v; host := host o;
     username := username o; password := password o |}.
Definition set_host (v : value) (o : instance) : instance :=
  {| network := network o; port := port o; headers := headers o; host := v;
     username := username o; password := password o |}.
Definition set_username (v : value) (o : instance) : instance :=
  {| network := network o; port := port o; headers := headers o; host := host o;
     username := v; password := password o |}.
Definition set_password (v : value) (o : instance) : instance :=
  {| network := network o; port := port o; headers := headers o; host := host o;
     username := username o; password := v |}.

Definition blank : instance :=
  {| network := VUndefined; port := VUndefined; headers := VUndefined;
     host := VUndefined; username := VUndefined; password := VUndefined |}.

(** [fromOptions(options)]: the six assignments come first, before any
    check. *)
Definition fromOptions (options : value) : M (world instance) instance :=
  assert (truthy options);;

  v <- read options "network";; assign set_network v;;
  v <- read options "port";; assign set_port v;;
  v <- read options "host";; assign set_host v;;
  v <- read options "headers";; assign set_headers v;;
  v <- read options "username";; assign set_username v;;
  v <- read options "password";; assign set_password v;;

  v <- read options "network";;
  when (not_nullish v)
    (v <- read options "network";; assert (String.eqb (typeof v) "object");;
     v <- read options "network";; assign set_network v);;

  v <- read options "port";;
  when (not_nullish v)
    (v <- read options "port";; assert (String.eqb (typeof v) "number");;
     v <- read options "port";; assign set_port v);;

  v <- read options "host";;
  when (not_nullish v)
    (v <- read options "host";; assert (String.eqb (typeof v) "string");;
     v <- read options "host";; assign set_host v);;

  v <- read options "username";;
  when (not_nullish v)
    (v <- read options "username";; assert (String.eqb (typeof v) "string");;
     v <- read options "username";; assign set_username v);;

  v <- read options "password";;
  when (not_nullish v)
    (v <- read options "password";; assert (String.eqb (typeof v) "string");;
     v <- read options "password";; assign set_password v);;

  w <- get_state;;
  ret (this w).

Section WithImports.
Context (env : imports).

(** [new MainchainOptions(options)] *)
Definition constructor {U} (options : value) : M (world U) instance :=
  construct blank
    (assign set_network (regtest env);;
     p <- read (regtest env) "mainchainPort";; assign set_port p;;
     h <- new_object {[ "Content-Type" := VStr "application/json" ]};;
     assign set_headers h;;
     assign set_host (VStr "localhost");;
     assign set_username (VStr "user");;
     assign set_password (VStr "password");;
     when (truthy options) (fromOptions options;; ret tt)).

(** [static fromOptions(options)]:
    [new MainchainOptions().fromOptions(options)] *)
Definition static_fromOptions {U} (options : value) : M (world U) instance :=
  o <- constructor VUndefined;;
  construct o (fromOptions options;; ret tt).

End WithImports.
End MainchainOptions.

(** ** mainchain.js: class MainchainClient *)

Module MainchainClient.

Record instance := {
  self : nat;          (* the address of the client object *)
  socket : value;      (* set by the constructor of bcurl's Client *)
  opened : value;
  options : MainchainOptions.instance;
  network : value;
  port : value;
  host : value;
  headers : value;
  username : value;
  password : value
}.

Definition set_socket (v : value) (c : instance) : instance :=
  {| self := self c; socket := v; opened := opened c; options := options c;
     network := network c; port := port c; host := host c;
     headers := headers c; username := username c; password := password c |}.
Definition set_opened (v : value) (c : instance) : instance :=
  {| self := self c; socket := socket c; opened := v; options := options c;
     network := network c; port := port c; host := host c;
     headers := headers c; username := username c; password := password c |}.
Definition set_options (o : MainchainOptions.instance) (c : instance) : instance :=
  {| self := self c; socket := socket c; opened := opened c; options := o;
     network := network c; port := port c; host := host c;
     headers := headers c; username := username c; password := password c |}.
Definition set_network (v : value) (c : instance) : instance :=
  {| self := self c; socket := socket c; opened := opened c; options := options c;
     network := v; port := port c; host := host c;
     headers := headers c; username := username c; password := password c |}.
Definition set_port (v : value) (c : instance) : instance :=
  {| self := self c; socket := socket c; opened := opened c; options := options c;
     network := network c; port := v; host := host c;
     headers := headers c; username := username c; password := password c |}.
Definition set_host (v : value) (c : instance) : instance :=
  {| self := self c; socket := socket c; opened := opened c; options := options c;
     network := network c; port := port c; host := v;
     headers := headers c; username := username c; password := password c |}.
Definition set_headers (v : value) (c : instance) : instance :=
  {| self := self c; socket := socket c; opened := opened c; options := options c;
     network := network c; port := port c; host := host c;
     headers := v; username := username c; password := password c |}.
Definition set_username (v : value) (c : instance) : instance :=
  {| self := self c; socket := socket c; opened := opened c; options := options c;
     network := network c; port := port c; host := host c;
     headers := headers c; username := v; password := password c |}.
Definition set_password (v : value) (c : instance) : instance :=
  {| self := self c; socket := socket c; opened := opened c; options := options c;
     network := network c; port := port c; host := host c;
     headers := headers c; username := username c; password := v |}.

Definition blank (a : nat) : instance :=
  {| self := a; socket := VUndefined; opened := VUndefined;
     options := MainchainOptions.blank; network := VUndefined;
     port := VUndefined; host := VUndefined; headers := VUndefined;
     username := VUndefined; password := VUndefined |}.

(** The client as a value: the object at its address, with the properties
    that the source assigns. *)
Definition as_value (c : instance) : value :=
  VObj (self c) false
    {[ "opened" := opened c; "network" := network c; "port" := port c;
       "host" := host c; "socket" := socket c; "headers" := headers c;
       "username" := username c; "password" := password c ]}.

Definition the_options : M (world instance) MainchainOptions.instance :=
  w <- get_state;;
  ret (options (this w)).

Section WithImports.
Context (env : imports).

(** Modelled from the spec: [Amount] comes from ../btc/amount, which is not
    part of the source; the spec has the amount coerced through that
    collaborator and sent in the string form it produces.  [new Amount(v)]
    is a fresh object that holds what the class computes from [v]. *)
Definition new_Amount {T} (v : value) : M (world T) value :=
  x <- lift (Amount_fromOptions env v);;
  new_object {[ "value" := x ]}.

(** Modelled from the spec: [amt.toString()] of the same class. *)
Definition Amount_toString_of {T} (amt : value) : M (world T) value :=
  x <- read amt "value";;
  ret (Amount_toString env x).

(** Modelled from the spec: [super()], the constructor of bcurl's [Client],
    which is not part of the source; of what it sets up, the client uses the
    socket, the handle of its transport. *)
Definition super : M (world instance) unit :=
  s <- new_object (Client_socket env);;
  assign set_socket s.

(** [new MainchainClient(options)] *)
Definition constructor {U} (options : value) : M (world U) instance :=
  a <- fresh;;
  construct (blank a)
    (super;;

     assign set_opened (VBool false);;

     o <- MainchainOptions.constructor env options;;
     modify (fun w => {| this := set_options o (this w); rt := rt w |});;
     o <- the_options;; assign set_network (MainchainOptions.network o);;
     o <- the_options;; assign set_port (MainchainOptions.port o);;
     o <- the_options;; assign set_host (MainchainOptions.host o);;
     o <- the_options;;
     w <- get_state;;
     s <- lift (set_prop (socket (this w)) "port" (MainchainOptions.port o));;
     assign set_socket s;;
     o <- the_options;; assign set_headers (MainchainOptions.headers o);;
     o <- the_options;; assign set_username (MainchainOptions.username o);;
     o <- the_options;; assign set_password (MainchainOptions.password o)).

(** [async open()] *)
Definition open : M (world instance) value :=
  async (w <- get_state;; ret (as_value (this w))).

(** [async broadcastWithdrawalBundle(sidechain, hash)] *)
Definition broadcastWithdrawalBundle (sidechain hash : value)
  : M (world instance) value :=
  async
    (c <- and_then (String.eqb (typeof hash) "string") (length_is hash 64);;
     assert c;;
     execute "/" "receivewithdrawalbundle" [sidechain; hash]).

(** [async verifyBMM(hashMainBlock, hashBMM, sidechain)] *)
Definition verifyBMM (hashMainBlock hashBMM sidechain : value)
  : M (world instance) value :=
  async
    (c <- and_then (String.eqb (typeof hashMainBlock) "string")
            (length_is hashMainBlock 64);;
     assert c;;
     c <- and_then (String.eqb (typeof hashBMM) "string") (length_is hashBMM 64);;
     assert c;;
     c <- ge env sidechain (num 0);; assert c;;
     execute "/" "verifybmm" [hashMainBlock; hashBMM; sidechain]).

(** [async getMainchainInfo()] *)
Definition getMainchainInfo : M (world instance) value :=
  async (execute "/" "getblockchaininfo" []).

(** [async getMainchainTip()] *)
Definition getMainchainTip : M (world instance) value :=
  async (execute "/" "getbestblockhash" []).

(** [async getMainchainBlockHash(height)] *)
Definition getMainchainBlockHash (height : value) : M (world instance) value :=
  async
    (assert (String.eqb (typeof height) "number");;
     execute "/" "getblockhash" [height]).

(** [async getSidechainTip(num)] *)
Definition getSidechainTip (n : value) : M (world instance) value :=
  async
    (assert (String.eqb (typeof n) "number");;
     execute "/" "listsidechainctip" [n]).

(** [async getRecentBlockHashes()] *)
Definition getRecentBlockHashes : M (world instance) value :=
  async (execute "/" "listpreviousblockhashes" []).

(** [async getBlockCount()] *)
Definition getBlockCount : M (world instance) value :=
  async (execute "/" "getblockcount" []).

(** [hasSpentWithdrawal(hash, sidechain)], not [async] *)
Definition hasSpentWithdrawal (hash sidechain : value) : M (world instance) value :=
  c <- and_then (String.eqb (typeof hash) "string") (length_is hash 64);;
  assert c;;
  c <- ge env sidechain (num 0);; assert c;;
  execute "/" "havespentwithdrawal" [hash; sidechain].

(** [hasFailedWithdrawal(hash, sidechain)], not [async] *)
Definition hasFailedWithdrawal (hash sidechain : value) : M (world instance) value :=
  c <- and_then (String.eqb (typeof hash) "string") (length_is hash 64);;
  assert c;;
  c <- ge env sidechain (num 0);; assert c;;
  execute "/" "havefailedwithdrawal" [hash; sidechain].

(** [getWorkScore(sidechain, hash)], not [async] *)
Definition getWorkScore (sidechain hash : value) : M (world instance) value :=
  assert (String.eqb (typeof sidechain) "number");;
  assert (String.eqb (typeof hash) "string");;
  execute "/" "getworkscore" [sidechain; hash].

(** [getAverageMainchainFees(blocks)], not [async] *)
Definition getAverageMainchainFees (blocks : value) : M (world instance) value :=
  assert (String.eqb (typeof blocks) "number");;
  execute "/" "getaveragefee" [blocks].

(** [async getWithdrawalBundleStatus(sidechain)] *)
Definition getWithdrawalBundleStatus (sidechain : value) : M (world instance) value :=
  async
    (c <- ge env sidechain (num 0);; assert c;;
     execute "/" "listwithdrawalstatus" [sidechain]).

(** [async verifyDeposit(hashMainBlock, txid, tx)]: the third assertion
    compares the string [typeof tx] with 0. *)
Definition verifyDeposit (hashMainBlock txid tx : value) : M (world instance) value :=
  async
    (c <- and_then (String.eqb (typeof hashMainBlock) "string")
            (length_is hashMainBlock 64);;
     assert c;;
     c <- and_then (String.eqb (typeof txid) "string") (length_is txid 64);;
     assert c;;
     c <- ge env (VStr (typeof tx)) (num 0);; assert c;;
     execute "/" "verifydeposit" [hashMainBlock; txid; tx]).

(** [async sendBMMRequest(amount, height, criticalHash, sidechain,
    prevMainBlock)]: the two hash checks are joined by [||], and [amt] is
    compared with a second new [Amount] by [===]. *)
Definition sendBMMRequest (amount height criticalHash sidechain prevMainBlock : value)
  : M (world instance) value :=
  async
    (assert (String.eqb (typeof height) "number");;
     c <- or_else (String.eqb (typeof criticalHash) "string")
            (length_is criticalHash 64);;
     assert c;;
     c <- or_else (String.eqb (typeof prevMainBlock) "string")
            (length_is prevMainBlock 64);;
     assert c;;
     c <- ge env sidechain (num 0);; assert c;;

     amt <- new_Amount amount;;

     zero <- new_Amount (num 0);;
     amt <- (if strict_eq amt zero
             then new_Amount (member (consensus env) "CRITICAL_DATA_AMT")
             else ret amt);;

     s <- Amount_toString_of amt;;
     execute "/" "createbmmcriticaldatatx"
       [s; height; criticalHash; sidechain; prevMainBlock]).

(** [createSidechainProposal(sidechain, name, desc, version, hashID,
    hashID2)], not [async] *)
Definition createSidechainProposal (sidechain name desc version hashID hashID2 : value)
  : M (world instance) value :=
  c <- ge env sidechain (member (common env) "THIS_SIDECHAIN");; assert c;;
  assert (String.eqb (typeof name) "string");;
  assert (String.eqb (typeof desc) "string");;
  c <- ge env version (num 0);; assert c;;
  assert (String.eqb (typeof hashID) "string");;
  assert (String.eqb (typeof hashID2) "string");;

  let tar := member (consensus env) "SIDECHAIN_BUILD_TAR_HASH" in
  let commit := member (consensus env) "SIDECHAIN_BUILD_COMMIT_HASH" in

  execute "/" "createsidechainproposal"
    [sidechain; name; desc; version; tar; commit].

(** [createSidechainDeposit(sidechain, addr, amount, fee)], not [async] *)
Definition createSidechainDeposit (sidechain addr amount fee : value)
  : M (world instance) value :=
  c <- ge env sidechain (num 0);; assert c;;
  assert (String.eqb (typeof addr) "string");;

  amt <- new_Amount amount;;

  s <- Amount_toString_of amt;;
  execute "/" "createsidechaindeposit" [sidechain; addr; s; fee].

(** [getSidechainActivationStatus(sidechain)], not [async] *)
Definition getSidechainActivationStatus (sidechain : value) : M (world instance) value :=
  c <- ge env sidechain (num 0);; assert c;;
  execute "/" "getsidechainactivationstatus" [sidechain].

(** [async isConnected()]: there is no [await]; [blocks] holds the promise
    that [then] returns when it is compared with [zero]. *)
Definition isConnected : M (world instance) value :=
  async
    (let zero := num 0 in
     blocks <- declare;;
     p <- getBlockCount;;
     q <- promise_then p (set_blocks blocks);;
     write blocks q;;
     b <- variable blocks;;
     let connection := if strict_eq b zero then VBool false else VBool true in
     ret connection).

(** [async close()], whose body is [return this.close()], called with
    [frames] stack frames left: a call that finds none throws a RangeError
    in its caller. *)
Fixpoint close (frames : nat) : M (world instance) value :=
  match frames with
  | O => throw RangeError
  | S frames => async (close frames)
  end.

(** The methods of the client, with their arguments. *)
Inductive operation :=
| Open
| BroadcastWithdrawalBundle (sidechain hash : value)
| VerifyBMM (hashMainBlock hashBMM sidechain : value)
| GetMainchainInfo
| GetMainchainTip
| GetMainchainBlockHash (height : value)
| GetSidechainTip (n : value)
| GetRecentBlockHashes
| GetBlockCount
| HasSpentWithdrawal (hash sidechain : value)
| HasFailedWithdrawal (hash sidechain : value)
| GetWorkScore (sidechain hash : value)
| GetAverageMainchainFees (blocks : value)
| GetWithdrawalBundleStatus (sidechain : value)
| VerifyDeposit (hashMainBlock txid tx : value)
| SendBMMRequest (amount height criticalHash sidechain prevMainBlock : value)
| CreateSidechainProposal (sidechain name desc version hashID hashID2 : value)
| CreateSidechainDeposit (sidechain addr amount fee : value)
| GetSidechainActivationStatus (sidechain : value)
| IsConnected
| Close (frames : nat).

Definition perform (op : operation) : M (world instance) value :=
  match op with
  | Open => open
  | BroadcastWithdrawalBundle s h => broadcastWithdrawalBundle s h
  | VerifyBMM m b s => verifyBMM m b s
  | GetMainchainInfo => getMainchainInfo
  | GetMainchainTip => getMainchainTip
  | GetMainchainBlockHash h => getMainchainBlockHash h
  | GetSidechainTip n => getSidechainTip n
  | GetRecentBlockHashes => getRecentBlockHashes
  | GetBlockCount => getBlockCount
  | HasSpentWithdrawal h s => hasSpentWithdrawal h s
  | HasFailedWithdrawal h s => hasFailedWithdrawal h s
  | GetWorkScore s h => getWorkScore s h
  | GetAverageMainchainFees b => getAverageMainchainFees b
  | GetWithdrawalBundleStatus s => getWithdrawalBundleStatus s
  | VerifyDeposit m t x => verifyDeposit m t x
  | SendBMMRequest a h c s p => sendBMMRequest a h c s p
  | CreateSidechainProposal s n d v a b => createSidechainProposal s n d v a b
  | CreateSidechainDeposit s a m f => createSidechainDeposit s a m f
  | GetSidechainActivationStatus s => getSidechainActivationStatus s
  | IsConnected => isConnected
  | Close frames => close frames
  end.

(** The states a client can be in: as its constructor leaves it, then after
    any method call, and after replies of the transport have come in. *)
Inductive reachable : world instance -> Prop :=
| reach_constructor (u u' : world unit) opts c :
    constructor opts u = (u', Normal c) ->
    reachable {| this := c; rt := rt u' |}
| reach_perform w op :
    reachable w -> reachable (fst (perform op w))
| reach_deliver w reply :
    reachable w -> reachable {| this := this w; rt := deliver reply (rt w) |}.

End WithImports.
End MainchainClient.

(** ** Predicates of the statements *)

(** A call that fails validation: the promise it returns is rejected with
    the assertion error, and nothing else has changed. *)
Definition fails_validation {T} (w : world T) (run : world T * completion value)
  : Prop :=
  exists p, snd run = Normal p /\
    this (fst run) = this w /\
    dispatched (rt (fst run)) = dispatched (rt w) /\
    forall reply,
      outcome_of 1 reply (promises (rt (fst run))) p = Some (Rejected AssertionError).

(** The call that getBlockCount dispatches. *)
Definition getblockcount_call : rpc_call :=
  {| endpoint := "/"; method := "getblockcount"; params := [] |}.

(** [m] never assigns to a field of its receiver, however it ends. *)
Definition keeps_this {T A} (m : M (world T) A) : Prop :=
  forall w, this (fst (m w)) = this w.

(** [m] maintains the property [I] of its receiver, however it ends. *)
Definition maintains {T A} (I : T -> Prop) (m : M (world T) A) : Prop :=
  forall w, I (this w) -> I (this (fst (m w))).

(** The flag [opened] of a client reads [false]. *)
Definition not_opened (c : MainchainClient.instance) : Prop :=
  MainchainClient.opened c = VBool false.

(** ** A concrete environment, for the examples *)

(** A string of hexadecimal digits *)
Definition is_hex (h : string) : bool :=
  forallb (fun a => bool_decide (is_Some (digit_in 16 a))) (list_ascii_of_string h).

Definition sample_imports : imports :=
  {| ToPrimitive := fun _ => Normal (VStr "[object Object]");
     isBuffer := fun v => match v with
                          | VObj _ false props => bool_decide (is_Some (props !! "byteLength"))
                          | _ => false
                          end;
     common := {[ "THIS_SIDECHAIN" := num 0 ]};
     consensus := {[ "CRITICAL_DATA_AMT" := num 1000;
                     "SIDECHAIN_BUILD_TAR_HASH" := VStr "tar";
                     "SIDECHAIN_BUILD_COMMIT_HASH" := VStr "commit" ]};
     EMPTY := VObj 0 false {[ "byteLength" := num 0; "length" := num 0 ]};
     Script_prototype := ∅;
     regtest := VObj 1 false {[ "mainchainPort" := num 18443 ]};
     Amount_fromOptions := fun v => match v with
                                    | VNum _ => Normal v
                                    | _ => Throw (HostError "Amount")
                                    end;
     Amount_toString := fun v => match v with
                                 | VNum (Finite q) =>
                                     if Qeq_bool q 0 then VStr "0.0"
                                     else if Qeq_bool q (inject_Z 1000) then VStr "0.00001"
                                     else VStr "?"
                                 | _ => VStr "?"
                                 end;
     Client_socket := ∅ |}.

Definition initial_runtime : runtime :=
  {| next_addr := 2; promises := ∅; dispatched := []; variables := ∅ |}.

Definition nowhere : world unit := {| this := tt; rt := initial_runtime |}.

(** A client built with no options, in the runtime its construction
    leaves. *)
Definition sample_client : world MainchainClient.instance :=
  match MainchainClient.constructor sample_imports VUndefined nowhere with
  | (u, Normal c) => {| this := c; rt := rt u |}
  | (u, Throw _) => {| this := MainchainClient.blank 0; rt := rt u |}
  end.

Definition a64 : string :=
  "aaaaaaaaaaaaaaaaaaaaaaaaaaaaaaaaaaaaaaaaaaaaaaaaaaaaaaaaaaaaaaaa".
Definition b64 : string :=
  "bbbbbbbbbbbbbbbbbbbbbbbbbbbbbbbbbbbbbbbbbbbbbbbbbbbbbbbbbbbbbbbb".

(** ** sidechain.js: the other methods of SidechainObject *)

Module SidechainObjectMethods.
Import SidechainObject.

Section WithImports.
Context (env : imports).

(** ToString, as applied to [${v}] in a template literal: the string, or
    the error that the conversion throws. *)
Context (ToString : value -> completion string).

(** Modelled from the spec: [o.m(args)] for a value [o] other than
    [undefined] and [null], whose methods ([toString] of a buffer or a
    script, [fromSidechainObject] of a script: "the script collaborator's
    decode operation") are not part of the source.  It gives what the
    method returns or throws, a TypeError when [o] has no such method. *)
Context (invoke : value -> string -> list value -> completion value).

(** [o.m(args)] *)
Definition call_method {S} (o : value) (m : string) (args : list value)
  : M S value :=
  match o with
  | VUndefined | VNull => throw TypeError
  | _ => lift (invoke o m args)
  end.

(** [getHash(hash)] *)
Definition getHash (hash : value) : M (world instance) value :=
  assert (isBuffer env hash);;
  ret hash.

(** [getScript(hash)] *)
Definition getScript (hash : value) : M (world instance) value :=
  assert (isBuffer env hash);;
  w <- get_state;;
  call_method (script (this w)) "fromSidechainObject" [hash].

(** [[inspectSymbol]()]: the parts of the string are evaluated from left
    to right. *)
Definition inspect : M (world instance) value :=
  w <- get_state;;
  s1 <- lift (ToString (sidechain (this w)));;
  w <- get_state;;
  h <- call_method (hash (this w)) "toString" [];;
  s2 <- lift (ToString h);;
  w <- get_state;;
  c <- call_method (script (this w)) "toString" [];;
  s3 <- lift (ToString c);;
  w <- get_state;;
  s4 <- lift (ToString (type (this w)));;
  ret (VStr ("<Sidechain:"
             ++ (" sidechain=" ++ s1)
             ++ (" hash=" ++ s2)
             ++ (" script=" ++ s3)
             ++ (" type=" ++ s4)
             ++ " >")).

End WithImports.
End SidechainObjectMethods.

(** The promise returned was rejected by the client with the error [e],
    and nothing else has changed. *)
Definition rejects_with {T} (e : error) (w : world T)
    (run : world T * completion value) : Prop :=
  exists p, snd run = Normal p /\
    this (fst run) = this w /\
    dispatched (rt (fst run)) = dispatched (rt w) /\
    forall reply,
      outcome_of 1 reply (promises (rt (fst run))) p = Some (Rejected e).

(** ** Predicates on calls of the client *)

(** A call on the one endpoint that the client uses. *)
Definition rpc (meth : string) (ps : list value) : rpc_call :=
  {| endpoint := "/"; method := meth; params := ps |}.

(** [m] hands nothing to the transport, however it ends. *)
Definition silent {T A} (m : M (world T) A) : Prop :=
  forall w, dispatched (rt (fst (m w))) = dispatched (rt w).

(** The call was refused by the client itself: it threw, or it returned a
    promise that it had already rejected. *)
Definition refused {T} (run : world T * completion value) : Prop :=
  match snd run with
  | Throw _ => True
  | Normal (VObj a _ _) =>
      exists e, promises (rt (fst run)) !! a = Some (RejectedWith e)
  | Normal _ => False
  end.

(** The call went to the transport as one call of [meth], behind the calls
    dispatched before, and the promise it returned settles as the transport
    replies to that call. *)
Definition answered {T} (meth : string) (w : world T)
    (run : world T * completion value) : Prop :=
  exists ps p,
    snd run = Normal p /\
    dispatched (rt (fst run)) = (dispatched (rt w) ++ [rpc meth ps])%list /\
    forall reply,
      outcome_of 2 reply (promises (rt (fst run))) p
      = Some (reply (length (dispatched (rt w)))).

(** [m] ends by returning the promise of [execute] for one call of [meth],
    or throws before it has dispatched anything. *)
Definition forwards {T} (meth : string) (m : M (world T) value) : Prop :=
  forall w,
    match m w with
    | (w', Throw _) => dispatched (rt w') = dispatched (rt w)
    | (w', Normal p) =>
        exists ps a,
          p = VObj a false ∅ /\
          next_addr (rt w') = S a /\
          promises (rt w') !! a = Some (AwaitsReply (length (dispatched (rt w)))) /\
          dispatched (rt w') = (dispatched (rt w) ++ [rpc meth ps])%list
    end.

(** The RPC method that an operation of the client is bound to; open() and
    close() have none. *)
Definition rpc_method (op : MainchainClient.operation) : option string :=
  match op with
  | MainchainClient.Open | MainchainClient.Close _ => None
  | MainchainClient.BroadcastWithdrawalBundle _ _ => Some "receivewithdrawalbundle"
  | MainchainClient.VerifyBMM _ _ _ => Some "verifybmm"
  | MainchainClient.GetMainchainInfo => Some "getblockchaininfo"
  | MainchainClient.GetMainchainTip => Some "getbestblockhash"
  | MainchainClient.GetMainchainBlockHash _ => Some "getblockhash"
  | MainchainClient.GetSidechainTip _ => Some "listsidechainctip"
  | MainchainClient.GetRecentBlockHashes => Some "listpreviousblockhashes"
  | MainchainClient.GetBlockCount => Some "getblockcount"
  | MainchainClient.HasSpentWithdrawal _ _ => Some "havespentwithdrawal"
  | MainchainClient.HasFailedWithdrawal _ _ => Some "havefailedwithdrawal"
  | MainchainClient.GetWorkScore _ _ => Some "getworkscore"
  | MainchainClient.GetAverageMainchainFees _ => Some "getaveragefee"
  | MainchainClient.GetWithdrawalBundleStatus _ => Some "listwithdrawalstatus"
  | MainchainClient.VerifyDeposit _ _ _ => Some "verifydeposit"
  | MainchainClient.SendBMMRequest _ _ _ _ _ => Some "createbmmcriticaldatatx"
  | MainchainClient.CreateSidechainProposal _ _ _ _ _ _ => Some "createsidechainproposal"
  | MainchainClient.CreateSidechainDeposit _ _ _ _ => Some "createsidechaindeposit"
  | MainchainClient.GetSidechainActivationStatus _ => Some "getsidechainactivationstatus"
  | MainchainClient.IsConnected => Some "getblockcount"
  end.

(** A session: the operations called one after the other, each on the state
    the one before has left. *)
Definition session (env : imports) (ops : list MainchainClient.operation)
    (w : world MainchainClient.instance) : world MainchainClient.instance :=
  fold_left (fun w op => fst (MainchainClient.perform env op w)) ops w.

(** The call went out as one call of [meth] with the parameters [ps],
    behind the calls dispatched before; the client is as it was, and the
    promise returned settles as the transport replies to that call. *)
Definition sends {T} (meth : string) (ps : list value) (w : world T)
    (run : world T * completion value) : Prop :=
  exists p,
    snd run = Normal p /\
    this (fst run) = this w /\
    dispatched (rt (fst run)) = (dispatched (rt w) ++ [rpc meth ps])%list /\
    forall reply,
      outcome_of 2 reply (promises (rt (fst run))) p
      = Some (reply (length (dispatched (rt w)))).

(** * Properties *)

(** ** Running the monad *)

Lemma bind_normal {S A B} (m : M S A) (k : A -> M S B) s s' a :
  m s = (s', Normal a) -> bind m k s = k a s'.
Proof. intros H. unfold bind. now rewrite H. Qed.

Lemma bind_throw {S A B} (m : M S A) (k : A -> M S B) s s' e :
  m s = (s', Throw e) -> bind m k s = (s', Throw e).
Proof. intros H. unfold bind. now rewrite H. Qed.

Lemma bind_ret {S A B} (a : A) (k : A -> M S B) s :
  bind (ret a) k s = k a s.
Proof. reflexivity. Qed.

Lemma async_normal {T} (body : M (world T) value) w w' v :
  body w = (w', Normal v) -> async body w = new_promise (ResolvedWith v) w'.
Proof. intros H. unfold async. now rewrite H. Qed.

Lemma async_throw {T} (body : M (world T) value) w w' e :
  body w = (w', Throw e) -> async body w = new_promise (RejectedWith e) w'.
Proof. intros H. unfold async. now rewrite H. Qed.

(** A new promise is the next address, and only adds itself. *)
Lemma new_promise_run {T} (p : plan) (w : world T) :
  new_promise p w =
    ({| this := this w;
        rt := set_promises (<[next_addr (rt w) := p]> (promises (rt w)))
                (set_next_addr (S (next_addr (rt w))) (rt w)) |},
     Normal (VObj (next_addr (rt w)) false ∅)).
Proof. reflexivity. Qed.

Lemma execute_run {T} endpoint method params (w : world T) :
  execute endpoint method params w =
    new_promise (AwaitsReply (length (dispatched (rt w))))
      {| this := this w;
         rt := set_dispatched
                 (dispatched (rt w) ++
                    [{| endpoint := endpoint; method := method; params := params |}])
                 (rt w) |}.
Proof. reflexivity. Qed.

(** ** Facts about the conversions *)

Example StringToNumber_padded :
  number_eqb (StringToNumber " 64 ") (Finite (inject_Z 64)) = true.
Proof. reflexivity. Qed.

Example StringToNumber_hexadecimal :
  number_eqb (StringToNumber "0x1F") (Finite (inject_Z 31)) = true.
Proof. reflexivity. Qed.

Example StringToNumber_signed_hexadecimal : StringToNumber "-0x1F" = NaN.
Proof. reflexivity. Qed.

Example StringToNumber_of_typeof : StringToNumber (typeof (num 5)) = NaN.
Proof. reflexivity. Qed.

Example less_than_fraction :
  less_than (VStr "1.5e1") (num 16) = Normal (Some true).
Proof. reflexivity. Qed.

Example less_than_strings :
  less_than (VStr "10") (VStr "9") = Normal (Some true).
Proof. reflexivity. Qed.

Lemma strict_eq_length (s : string) (n : Z) :
  strict_eq (num (Z.of_nat (String.length s))) (num n)
  = (Z.of_nat (String.length s) =? n).
Proof.
  unfold strict_eq, num, number_eqb, Qeq_bool, inject_Z. simpl.
  now rewrite !Z.mul_1_r.
Qed.

(** The check [typeof v === 'string' && v.length === 64] never throws and
    leaves the state alone; on a string it tests the length. *)
Lemma hash_check_run {S} (v : value) (s : S) :
  exists b, and_then (String.eqb (typeof v) "string") (length_is v 64) s
            = (s, Normal b).
Proof.
  destruct v as [| | | | | | |a c props]; try (exists false; reflexivity).
  - eexists. reflexivity.
  - destruct c; exists false; reflexivity.
Qed.

Lemma hash_check_string {S} (h : string) (s : S) :
  and_then (String.eqb (typeof (VStr h)) "string") (length_is (VStr h) 64) s
  = (s, Normal (Z.of_nat (String.length h) =? 64)).
Proof.
  unfold and_then, length_is, read, lift, bind, ret, get_prop.
  change (String.eqb (typeof (VStr h)) "string") with true.
  change (String.eqb "length" "length") with true.
  cbv beta iota. now rewrite strict_eq_length.
Qed.

(** [num s >= 0] for an integer [s] *)
Lemma ge_integer_zero {S} env (z : Z) (s : S) :
  ge env (num z) (num 0) s = (s, Normal (0 <=? z)).
Proof.
  unfold ge, bind, lift, ret, primitive, num, less_than, ToNumeric,
    as_number, number_lt, Qle_bool, inject_Z. simpl.
  rewrite !Z.mul_1_r. now destruct (0 <=? z).
Qed.

(** No result of [typeof] converts to a number: compared with 0 by [>=] it
    gives false. *)
Lemma typeof_ge_zero {S} env (v : value) (s : S) :
  ge env (VStr (typeof v)) (num 0) s = (s, Normal false).
Proof.
  destruct v as [| | | | | | |a c props]; try reflexivity.
  destruct c; reflexivity.
Qed.

Lemma assert_true {S B} (k : unit -> M S B) s :
  bind (assert true) k s = k tt s.
Proof. reflexivity. Qed.

Lemma assert_false {S B} (k : unit -> M S B) s :
  bind (assert false) k s = (s, Throw AssertionError).
Proof. reflexivity. Qed.

Lemma outcome_rejected fuel reply (ps : gmap nat plan) a c props e :
  ps !! a = Some (RejectedWith e) ->
  outcome_of (S fuel) reply ps (VObj a c props) = Some (Rejected e).
Proof. intros H. simpl. now rewrite H. Qed.

Lemma rejected_promise_fails {T} (w : world T) :
  fails_validation w (new_promise (RejectedWith AssertionError) w).
Proof.
  rewrite new_promise_run. eexists. split; [reflexivity|].
  repeat split. intros reply. apply outcome_rejected. simpl.
  apply lookup_insert_eq.
Qed.

(** ** verifyDeposit *)

Lemma verifyDeposit_run env (hashMainBlock txid tx : value)
    (w : world MainchainClient.instance) :
  MainchainClient.verifyDeposit env hashMainBlock txid tx w
  = new_promise (RejectedWith AssertionError) w.
Proof.
  unfold MainchainClient.verifyDeposit. apply async_throw.
  destruct (hash_check_run hashMainBlock w) as [b1 H1].
  rewrite (bind_normal _ _ _ _ _ H1).
  destruct b1; [rewrite assert_true | now rewrite assert_false].
  destruct (hash_check_run txid w) as [b2 H2].
  rewrite (bind_normal _ _ _ _ _ H2).
  destruct b2; [rewrite assert_true | now rewrite assert_false].
  rewrite (bind_normal _ _ _ _ _ (typeof_ge_zero env tx w)).
  now rewrite assert_false.
Qed.

(** C9. Whatever its three arguments, verifyDeposit fails an assertion
    before it dispatches: [typeof tx >= 0] compares a string that is no
    number with 0, which is false for every [tx]; the promise returned is
    rejected with the assertion error and no call reaches the transport. *)
Theorem verifyDeposit_never_succeeds env (hashMainBlock txid tx : value)
    (w : world MainchainClient.instance) :
  (forall s : world MainchainClient.instance,
      ge env (VStr (typeof tx)) (num 0) s = (s, Normal false)) /\
  fails_validation w (MainchainClient.verifyDeposit env hashMainBlock txid tx w).
Proof.
  split; [intros s; apply typeof_ge_zero|].
  rewrite verifyDeposit_run. apply rejected_promise_fails.
Qed.

(** ** broadcastWithdrawalBundle *)

Lemma broadcastWithdrawalBundle_run (sidechain : value) (h : string)
    (w : world MainchainClient.instance) :
  MainchainClient.broadcastWithdrawalBundle sidechain (VStr h) w =
    if Z.of_nat (String.length h) =? 64
    then async (execute "/" "receivewithdrawalbundle" [sidechain; VStr h]) w
    else new_promise (RejectedWith AssertionError) w.
Proof.
  unfold MainchainClient.broadcastWithdrawalBundle.
  destruct (Z.of_nat (String.length h) =? 64) eqn:E.
  - unfold async at 1 2.
    rewrite (bind_normal _ _ _ _ _ (hash_check_string h w)), E, assert_true.
    reflexivity.
  - apply async_throw.
    rewrite (bind_normal _ _ _ _ _ (hash_check_string h w)), E.
    now rewrite assert_false.
Qed.

(** C8. For a hex string [h] of 64 characters and an integer [s >= 0],
    broadcastWithdrawalBundle(s, h) hands exactly one call to the transport,
    with method receivewithdrawalbundle and parameters [s, h]; for a string
    of any other length it fails validation and dispatches nothing. *)
Theorem broadcastWithdrawalBundle_dispatch (s : Z) (h : string)
    (w : world MainchainClient.instance) :
  (String.length h = 64%nat -> is_hex h = true -> 0 <= s ->
   exists w' p,
     MainchainClient.broadcastWithdrawalBundle (num s) (VStr h) w
       = (w', Normal p) /\
     dispatched (rt w') =
       (dispatched (rt w) ++
          [{| endpoint := "/"; method := "receivewithdrawalbundle";
              params := [num s; VStr h] |}])%list) /\
  (String.length h <> 64%nat ->
   fails_validation w
     (MainchainClient.broadcastWithdrawalBundle (num s) (VStr h) w)).
Proof.
  rewrite broadcastWithdrawalBundle_run. split.
  - intros Hlen _ _. rewrite Hlen. simpl Z.eqb. cbv iota.
    erewrite async_normal by apply execute_run.
    rewrite new_promise_run. do 2 eexists. split; reflexivity.
  - intros Hlen.
    destruct (Z.eqb_spec (Z.of_nat (String.length h)) 64) as [E|E]; [lia|].
    apply rejected_promise_fails.
Qed.

(** C8, at a hash of 64 characters and at one of 3. *)
Lemma broadcastWithdrawalBundle_witness :
  (exists w' p,
      MainchainClient.broadcastWithdrawalBundle (num 0) (VStr a64) sample_client
        = (w', Normal p) /\
      dispatched (rt w') =
        (dispatched (rt sample_client) ++
           [{| endpoint := "/"; method := "receivewithdrawalbundle";
               params := [num 0; VStr a64] |}])%list) /\
  fails_validation sample_client
    (MainchainClient.broadcastWithdrawalBundle (num 0) (VStr "abc") sample_client).
Proof.
  split.
  - apply (proj1 (broadcastWithdrawalBundle_dispatch 0 a64 sample_client));
      [reflexivity | reflexivity | lia].
  - apply (proj2 (broadcastWithdrawalBundle_dispatch 0 "abc" sample_client)).
    simpl. lia.
Defined.

(** ** sendBMMRequest *)

Lemma Amount_toString_of_new {T} env a c (x : value) (w : world T) :
  MainchainClient.Amount_toString_of env (VObj a c {[ "value" := x ]}) w
  = (w, Normal (Amount_toString env x)).
Proof.
  unfold MainchainClient.Amount_toString_of, read, lift, bind, ret, get_prop.
  now rewrite lookup_singleton_eq.
Qed.

(** With a number for the height, strings of any length for the two
    hashes and an integer [s >= 0], the request is dispatched, and its
    amount is the string of the amount that was passed in. *)
Lemma sendBMMRequest_run env amount x x0 (n : number) (ch ph : string) (s : Z)
    (w : world MainchainClient.instance) :
  Amount_fromOptions env amount = Normal x ->
  Amount_fromOptions env (num 0) = Normal x0 ->
  0 <= s ->
  exists w' p,
    MainchainClient.sendBMMRequest env amount (VNum n) (VStr ch) (num s) (VStr ph) w
      = (w', Normal p) /\
    dispatched (rt w') =
      (dispatched (rt w) ++
         [{| endpoint := "/"; method := "createbmmcriticaldatatx";
             params := [Amount_toString env x; VNum n; VStr ch; num s; VStr ph] |}])%list.
Proof.
  intros H H0 Hs.
  unfold MainchainClient.sendBMMRequest.
  change (String.eqb (typeof (VNum n)) "number") with true.
  change (String.eqb (typeof (VStr ch)) "string") with true.
  change (String.eqb (typeof (VStr ph)) "string") with true.
  unfold or_else.
  erewrite async_normal.
  2:{ rewrite assert_true, bind_ret, assert_true, bind_ret, assert_true.
      rewrite (bind_normal _ _ _ _ _ (ge_integer_zero env s w)).
      replace (0 <=? s) with true by (symmetry; apply Z.leb_le; lia).
      rewrite assert_true.
      unfold MainchainClient.new_Amount. rewrite H, H0. cbn.
      rewrite (proj2 (Nat.eqb_neq _ _)) by lia.
      rewrite bind_ret.
      erewrite bind_normal by apply Amount_toString_of_new.
      apply execute_run. }
  rewrite !new_promise_run. do 2 eexists. split; reflexivity.
Qed.

(** C2. With amount 0 (and a number for the height, strings for the hashes
    and a sidechain number [s >= 0]) the request goes out with the string of
    the amount 0 itself: the comparison [amt === new Amount(0)] is between
    two distinct objects, so CRITICAL_DATA_AMT is never substituted. *)
Theorem sendBMMRequest_zero_amount env x (n : number) (ch ph : string) (s : Z)
    (w : world MainchainClient.instance) :
  Amount_fromOptions env (num 0) = Normal x ->
  0 <= s ->
  exists w' p,
    MainchainClient.sendBMMRequest env (num 0) (VNum n) (VStr ch) (num s) (VStr ph) w
      = (w', Normal p) /\
    dispatched (rt w') =
      (dispatched (rt w) ++
         [{| endpoint := "/"; method := "createbmmcriticaldatatx";
             params := [Amount_toString env x; VNum n; VStr ch; num s; VStr ph] |}])%list.
Proof. intros H Hs. now apply sendBMMRequest_run with (x0 := x). Qed.

(** C2, in the sample environment: the amount sent is "0.0", the string of
    0, where CRITICAL_DATA_AMT (1000) would have read "0.00001". *)
Lemma sendBMMRequest_zero_amount_witness :
  exists w' p,
    MainchainClient.sendBMMRequest sample_imports (num 0) (VNum (Finite 5))
      (VStr a64) (num 0) (VStr b64) sample_client = (w', Normal p) /\
    dispatched (rt w') =
      (dispatched (rt sample_client) ++
         [{| endpoint := "/"; method := "createbmmcriticaldatatx";
             params := [VStr "0.0"; VNum (Finite 5); VStr a64; num 0; VStr b64] |}])%list.
Proof.
  apply (sendBMMRequest_zero_amount sample_imports (num 0) (Finite 5) a64 b64 0
           sample_client); [reflexivity | lia].
Defined.

(** C7. A critical hash or previous block hash that is a string of some
    other length than 64 is accepted: the request is dispatched with it. *)
Theorem sendBMMRequest_accepts_any_string env amount x x0 (n : number)
    (ch ph : string) (s : Z) (w : world MainchainClient.instance) :
  String.length ch <> 64%nat \/ String.length ph <> 64%nat ->
  Amount_fromOptions env amount = Normal x ->
  Amount_fromOptions env (num 0) = Normal x0 ->
  0 <= s ->
  exists w' p,
    MainchainClient.sendBMMRequest env amount (VNum n) (VStr ch) (num s) (VStr ph) w
      = (w', Normal p) /\
    dispatched (rt w') =
      (dispatched (rt w) ++
         [{| endpoint := "/"; method := "createbmmcriticaldatatx";
             params := [Amount_toString env x; VNum n; VStr ch; num s; VStr ph] |}])%list.
Proof. intros _. apply sendBMMRequest_run. Qed.

(** C7, with the critical hash "abc". *)
Lemma sendBMMRequest_accepts_any_string_witness :
  exists w' p,
    MainchainClient.sendBMMRequest sample_imports (num 1000) (VNum (Finite 5))
      (VStr "abc") (num 0) (VStr b64) sample_client = (w', Normal p) /\
    dispatched (rt w') =
      (dispatched (rt sample_client) ++
         [{| endpoint := "/"; method := "createbmmcriticaldatatx";
             params := [VStr "0.00001"; VNum (Finite 5); VStr "abc"; num 0;
                        VStr b64] |}])%list.
Proof.
  apply (sendBMMRequest_accepts_any_string sample_imports (num 1000) (num 1000) (num 0)
           (Finite 5) "abc" b64 0 sample_client);
    [left; simpl; lia | reflexivity | reflexivity | lia].
Defined.

(** The same check in verifyBMM, written with [&&], does reject a string of
    another length than 64. *)
Lemma verifyBMM_rejects_short_hash env (h : string) (hashBMM sidechain : value)
    (w : world MainchainClient.instance) :
  String.length h <> 64%nat ->
  fails_validation w
    (MainchainClient.verifyBMM env (VStr h) hashBMM sidechain w).
Proof.
  intros Hlen. unfold MainchainClient.verifyBMM.
  erewrite async_throw; [apply rejected_promise_fails|].
  rewrite (bind_normal _ _ _ _ _ (hash_check_string h w)).
  destruct (Z.eqb_spec (Z.of_nat (String.length h)) 64) as [E|E]; [lia|].
  now rewrite assert_false.
Qed.

(** ** createSidechainProposal *)

(** A comparison by [>=] leaves the state alone. *)
Lemma ge_state {S} env (a b : value) (s : S) : fst (ge env a b s) = s.
Proof.
  unfold ge, bind, lift, ret.
  destruct (primitive env a); [|reflexivity].
  destruct (primitive env b); [|reflexivity].
  destruct (less_than _ _); reflexivity.
Qed.

Lemma ge_run {S} env (a b : value) (s : S) : exists c, ge env a b s = (s, c).
Proof.
  exists (snd (ge env a b s)). pose proof (ge_state env a b s) as H.
  destruct (ge env a b s) as [s' c]. simpl in *. now subst.
Qed.

Lemma typeof_string (v : value) :
  typeof v = "string" -> exists t, v = VStr t.
Proof.
  destruct v as [| | | | t | | |a c props]; try discriminate; [eauto|].
  destruct c; discriminate.
Qed.

(** The two ways a proposal ends, for arguments of any kind: it throws
    before anything has changed, or both hashes are strings and the call
    that goes out is made of the first four arguments and the two build
    hashes of the node. *)
Lemma createSidechainProposal_cases env
    (sidechain name desc version hashID hashID2 : value)
    (w : world MainchainClient.instance) :
  (exists e,
     MainchainClient.createSidechainProposal env sidechain name desc version
       hashID hashID2 w = (w, Throw e)) \/
  (typeof hashID = "string" /\ typeof hashID2 = "string" /\
   MainchainClient.createSidechainProposal env sidechain name desc version
     hashID hashID2 w
   = execute "/" "createsidechainproposal"
       [sidechain; name; desc; version;
        member (consensus env) "SIDECHAIN_BUILD_TAR_HASH";
        member (consensus env) "SIDECHAIN_BUILD_COMMIT_HASH"] w).
Proof.
  unfold MainchainClient.createSidechainProposal.
  destruct (ge_run env sidechain (member (common env) "THIS_SIDECHAIN") w)
    as [[[|]|e] H1];
    rewrite ?(bind_normal _ _ _ _ _ H1), ?(bind_throw _ _ _ _ _ H1);
    [rewrite assert_true | rewrite assert_false; eauto | eauto].
  destruct (String.eqb (typeof name) "string");
    [rewrite assert_true | rewrite assert_false; eauto].
  destruct (String.eqb (typeof desc) "string");
    [rewrite assert_true | rewrite assert_false; eauto].
  destruct (ge_run env version (num 0) w)
    as [[[|]|e] H2];
    rewrite ?(bind_normal _ _ _ _ _ H2), ?(bind_throw _ _ _ _ _ H2);
    [rewrite assert_true | rewrite assert_false; eauto | eauto].
  destruct (String.eqb_spec (typeof hashID) "string") as [EA|_];
    [rewrite assert_true | rewrite assert_false; eauto].
  destruct (String.eqb_spec (typeof hashID2) "string") as [EB|_];
    [rewrite assert_true | rewrite assert_false; eauto].
  right. auto.
Qed.

(** C3. Take two calls of createSidechainProposal that differ only in the
    two hashes passed in, whatever values those are.  Each of them either
    throws with nothing dispatched and nothing changed, or dispatches
    exactly one createsidechainproposal whose parameters are the first four
    arguments followed by consensus.SIDECHAIN_BUILD_TAR_HASH and
    consensus.SIDECHAIN_BUILD_COMMIT_HASH: what is dispatched never carries
    a hash of the caller.  A call goes through only if its two hashes are
    strings; two calls that both go through, and any two calls whose hashes
    are strings, do exactly the same thing. *)
Theorem createSidechainProposal_fixed_hashes env
    (sidechain name desc version hashA hashB hashA' hashB' : value)
    (w : world MainchainClient.instance) :
  let call :=
    {| endpoint := "/"; method := "createsidechainproposal";
       params := [sidechain; name; desc; version;
                  member (consensus env) "SIDECHAIN_BUILD_TAR_HASH";
                  member (consensus env) "SIDECHAIN_BUILD_COMMIT_HASH"] |} in
  let first :=
    MainchainClient.createSidechainProposal env sidechain name desc version
      hashA hashB w in
  let second :=
    MainchainClient.createSidechainProposal env sidechain name desc version
      hashA' hashB' w in
  (forall run, run = first \/ run = second ->
     (exists e, run = (w, Throw e)) \/
     (exists w' p, run = (w', Normal p) /\
        dispatched (rt w') = (dispatched (rt w) ++ [call])%list)) /\
  (forall w1 p1, first = (w1, Normal p1) ->
     typeof hashA = "string" /\ typeof hashB = "string") /\
  (forall w1 p1 w2 p2,
     first = (w1, Normal p1) -> second = (w2, Normal p2) -> first = second) /\
  (typeof hashA = "string" -> typeof hashB = "string" ->
   typeof hashA' = "string" -> typeof hashB' = "string" -> first = second).
Proof.
  intros call first second.
  pose proof (createSidechainProposal_cases env sidechain name desc version
                hashA hashB w) as H1.
  pose proof (createSidechainProposal_cases env sidechain name desc version
                hashA' hashB' w) as H2.
  fold first in H1. fold second in H2. fold call in H1, H2.
  split; [|split; [|split]].
  - intros run [->| ->]; [destruct H1 as [H|(_ & _ & H)]
                         | destruct H2 as [H|(_ & _ & H)]];
      try (left; exact H);
      right; rewrite H, execute_run, new_promise_run;
      do 2 eexists; split; reflexivity.
  - intros w1 p1 E. destruct H1 as [[e H]|(HA & HB & _)]; [|now split].
    rewrite H in E. discriminate E.
  - intros w1 p1 w2 p2 E1 E2.
    destruct H1 as [[e H]|(_ & _ & H1)]; [rewrite H in E1; discriminate E1|].
    destruct H2 as [[e H]|(_ & _ & H2)]; [rewrite H in E2; discriminate E2|].
    now rewrite H1, H2.
  - intros HA HB HA' HB'.
    apply typeof_string in HA as [a ->]. apply typeof_string in HB as [b ->].
    apply typeof_string in HA' as [a' ->]. apply typeof_string in HB' as [b' ->].
    reflexivity.
Qed.

(** C3, for two proposals that go through with different hashes, and for
    one whose second hash is missing. *)
Lemma createSidechainProposal_fixed_hashes_witness :
  (exists w' p,
     MainchainClient.createSidechainProposal sample_imports (num 0)
       (VStr "testchain") (VStr "a test") (num 0) (VStr a64) (VStr b64)
       sample_client = (w', Normal p) /\
     dispatched (rt w') =
       (dispatched (rt sample_client) ++
          [{| endpoint := "/"; method := "createsidechainproposal";
              params := [num 0; VStr "testchain"; VStr "a test"; num 0;
                         VStr "tar"; VStr "commit"] |}])%list) /\
  MainchainClient.createSidechainProposal sample_imports (num 0)
    (VStr "testchain") (VStr "a test") (num 0) (VStr a64) (VStr b64) sample_client
  = MainchainClient.createSidechainProposal sample_imports (num 0)
      (VStr "testchain") (VStr "a test") (num 0) (VStr b64) (VStr "") sample_client /\
  MainchainClient.createSidechainProposal sample_imports (num 0)
    (VStr "testchain") (VStr "a test") (num 0) (VStr a64) VUndefined sample_client
  = (sample_client, Throw AssertionError).
Proof.
  pose proof (createSidechainProposal_fixed_hashes sample_imports (num 0)
                (VStr "testchain") (VStr "a test") (num 0)
                (VStr a64) (VStr b64) (VStr b64) (VStr "") sample_client)
    as (Hrun & _ & _ & Hsame).
  pose proof (createSidechainProposal_fixed_hashes sample_imports (num 0)
                (VStr "testchain") (VStr "a test") (num 0)
                (VStr a64) VUndefined (VStr a64) (VStr b64) sample_client)
    as (Hthrow & _ & _ & _).
  cbv zeta in Hrun, Hsame, Hthrow.
  split; [|split].
  - destruct (Hrun _ (or_introl eq_refl)) as [[e H]|H]; [|exact H].
    vm_compute in H. discriminate H.
  - apply Hsame; reflexivity.
  - destruct (Hthrow _ (or_introl eq_refl)) as [[e H]|(w' & p & H & _)].
    + rewrite H. vm_compute in H. now injection H as <-.
    + vm_compute in H. discriminate H.
Defined.

(** ** isConnected *)

(** What a call of isConnected does, with [n] the next fresh address: the
    variable [blocks] is [n], the promise of [execute] is [n+1], that of
    getBlockCount [n+2], that of [then] [n+3] and that of isConnected
    itself [n+4]. *)
Lemma isConnected_run (w : world MainchainClient.instance) :
  let n := next_addr (rt w) in
  MainchainClient.isConnected w =
    ({| this := this w;
        rt := {| next_addr := 5 + n;
                 promises :=
                   <[4 + n := ResolvedWith (VBool true)]>
                     (<[3 + n := ThenOf (2 + n) (set_blocks n)]>
                        (<[2 + n := ResolvedWith (VObj (1 + n) false ∅)]>
                           (<[1 + n := AwaitsReply (length (dispatched (rt w)))]>
                              (promises (rt w)))));
                 dispatched := dispatched (rt w) ++ [getblockcount_call];
                 variables := <[n := VObj (3 + n) false ∅]> (variables (rt w)) |} |},
     Normal (VObj (4 + n) false ∅))%nat.
Proof.
  intros n. unfold MainchainClient.isConnected, MainchainClient.getBlockCount.
  erewrite async_normal.
  2:{ unfold declare. cbn -[lookup insert].
      unfold promise_then, bind, get_state. cbn -[lookup insert].
      rewrite lookup_insert_eq. cbn -[lookup insert].
      rewrite lookup_insert_eq. reflexivity. }
  reflexivity.
Qed.

(** C4. Whatever the transport replies to getblockcount, 0 included, the
    promise that isConnected returns is fulfilled with [true]: without an
    [await], [blocks] is still the promise returned by [then] when it is
    compared with 0. *)
Theorem isConnected_always_true (reply : nat -> outcome)
    (w : world MainchainClient.instance) :
  exists w' p,
    MainchainClient.isConnected w = (w', Normal p) /\
    dispatched (rt w') = (dispatched (rt w) ++ [getblockcount_call])%list /\
    outcome_of 3 reply (promises (rt w')) (VObj (2 + next_addr (rt w)) false ∅)
      = Some (reply (length (dispatched (rt w)))) /\
    outcome_of 3 reply (promises (rt w')) p = Some (Fulfilled (VBool true)).
Proof.
  rewrite isConnected_run. do 2 eexists. split; [reflexivity|].
  split; [reflexivity|]. cbn -[lookup insert]. split.
  - rewrite !lookup_insert_ne by lia. rewrite lookup_insert_eq.
    rewrite !lookup_insert_ne by lia. now rewrite lookup_insert_eq.
  - now rewrite lookup_insert_eq.
Qed.

(** On the sample client, with the block count 0: isConnected answers
    [true], and only when the reply is delivered does the callback store 0
    in [blocks]. *)
Example isConnected_with_no_blocks :
  let reply := fun _ : nat => Fulfilled (num 0) in
  let w' := fst (MainchainClient.isConnected sample_client) in
  let n := next_addr (rt sample_client) in
  outcome_of 3 reply (promises (rt w')) (VObj (4 + n) false ∅)
    = Some (Fulfilled (VBool true)) /\
  variables (rt w') !! n = Some (VObj (3 + n) false ∅) /\
  variables (deliver reply (rt w')) !! n = Some (num 0).
Proof. vm_compute. repeat split. Qed.

(** ** close *)

(** The promises that [S k] nested calls of close leave behind: the
    innermost is rejected with the RangeError, and each of the others
    follows the one inside it. *)
Lemma close_run (k : nat) (w : world MainchainClient.instance) :
  let n := next_addr (rt w) in
  exists ps,
    MainchainClient.close (S k) w =
      ({| this := this w; rt := set_promises ps (set_next_addr (S k + n) (rt w)) |},
       Normal (VObj (k + n) false ∅)) /\
    ps !! n = Some (RejectedWith RangeError) /\
    forall i, (i < k)%nat ->
      ps !! (S i + n)%nat = Some (ResolvedWith (VObj (i + n) false ∅)).
Proof.
  intros n. induction k as [|k IH].
  - eexists. split; [reflexivity|]. split.
    + simpl. apply lookup_insert_eq.
    + intros i Hi. lia.
  - destruct IH as (ps & Hrun & Hn & Hps).
    change (MainchainClient.close (S (S k)))
      with (async (MainchainClient.close (S k))).
    erewrite async_normal by exact Hrun. rewrite new_promise_run.
    eexists. split; [reflexivity|]. simpl. split.
    + rewrite lookup_insert_ne by lia. exact Hn.
    + intros i Hi. destruct (decide (i = k)) as [->|Hne].
      * apply lookup_insert_eq.
      * rewrite lookup_insert_ne by lia. apply Hps. lia.
Qed.

Lemma outcome_of_chain reply (ps : gmap nat plan) (n k : nat) :
  ps !! n = Some (RejectedWith RangeError) ->
  (forall i, (i < k)%nat ->
     ps !! (S i + n)%nat = Some (ResolvedWith (VObj (i + n) false ∅))) ->
  outcome_of (S (S k)) reply ps (VObj (k + n) false ∅) = Some (Rejected RangeError).
Proof.
  intros Hn. induction k as [|k IH]; intros Hps.
  - now apply outcome_rejected.
  - change (outcome_of (S (S (S k))) reply ps (VObj (S k + n) false ∅))
      with (match ps !! (S k + n)%nat with
            | None => Some (Fulfilled (VObj (S k + n) false ∅))
            | Some (ResolvedWith v') => outcome_of (S (S k)) reply ps v'
            | Some (RejectedWith e) => Some (Rejected e)
            | Some (AwaitsReply n) => Some (reply n)
            | Some (ThenOf parent cb) =>
                match outcome_of (S (S k)) reply ps (VObj parent false ∅) with
                | Some (Fulfilled x) => Some (Fulfilled (callback_result cb x))
                | r => r
                end
            end).
    rewrite (Hps k) by lia. apply IH. intros i Hi. apply Hps. lia.
Qed.

(** C6. close() calls itself until the stack is used up.  Whatever the
    number of frames, it never completes: with none left the call throws
    the RangeError, otherwise the promise it returns is rejected with it.
    It made one call of itself per frame (each left one promise),
    dispatched nothing, and the client, its socket included, is as it was:
    the transport is never released. *)
Theorem close_never_closes (frames : nat) (w : world MainchainClient.instance) :
  let run := MainchainClient.close frames w in
  this (fst run) = this w /\
  dispatched (rt (fst run)) = dispatched (rt w) /\
  next_addr (rt (fst run)) = (frames + next_addr (rt w))%nat /\
  match snd run with
  | Throw e => e = RangeError /\ frames = O
  | Normal p =>
      forall reply,
        outcome_of (S frames) reply (promises (rt (fst run))) p
        = Some (Rejected RangeError)
  end.
Proof.
  destruct frames as [|k]; [now repeat split|].
  destruct (close_run k w) as (ps & Hrun & Hn & Hps).
  cbv zeta. rewrite Hrun. repeat split.
  intros reply. now apply outcome_of_chain.
Qed.

(** ** SidechainObject.fromOptions *)

(** Decides the conditions of the goal one after the other, and drops the
    paths that end in a throw. *)
Ltac branches H :=
  repeat (cbn;
          match goal with
          | |- context [if ?b then _ else _] => destruct b
          end);
  cbn; intros H; try discriminate H.

(** Whenever a merge goes through, every field of the entry is what the
    options hold under its name, [undefined] when they hold nothing: no
    field keeps its value. *)
Lemma SidechainObject_fromOptions_overwrites env a c (props : gmap string value)
    (o : SidechainObject.instance) (r : runtime) w' e :
  SidechainObject.fromOptions env (VObj a c props) {| this := o; rt := r |}
    = (w', Normal e) ->
  e = {| SidechainObject.sidechain := member props "sidechain";
         SidechainObject.hash := member props "hash";
         SidechainObject.script := member props "script";
         SidechainObject.type := member props "type";
         SidechainObject.version := member props "version" |} /\
  w' = {| this := e; rt := r |}.
Proof.
  unfold SidechainObject.fromOptions, read, lift, get_prop.
  change (default VUndefined (props !! "sidechain")) with (member props "sidechain").
  change (default VUndefined (props !! "hash")) with (member props "hash").
  change (default VUndefined (props !! "script")) with (member props "script").
  change (default VUndefined (props !! "type")) with (member props "type").
  change (default VUndefined (props !! "version")) with (member props "version").
  generalize (member props "sidechain") (member props "hash")
    (member props "script") (member props "type") (member props "version").
  intros v1 v2 v3 v4 v5.
  unfold when, bind, assert, assign, modify, ret, throw, get_state,
    SidechainObject.identifier.
  branches H; injection H as <- <-; split; reflexivity.
Qed.

(** C1. An entry built from {sidechain: 3, type: 1} and then merged with
    {type: 2} ends with type 2 and with every other field [undefined]: the
    assignments are not under the [if]s, and all five are made again at the
    end, so a field that the options lack is overwritten with [undefined]
    instead of being kept.  (Already the construction has left hash, script
    and version [undefined].) *)
Theorem SidechainObject_merge_discards_absent env (a b : nat) (u : world unit) :
  let first := VObj a false {[ "sidechain" := num 3; "type" := num 1 ]} in
  let second := VObj b false {[ "type" := num 2 ]} in
  let merged :=
    {| SidechainObject.sidechain := VUndefined;
       SidechainObject.hash := VUndefined;
       SidechainObject.script := VUndefined;
       SidechainObject.type := num 2;
       SidechainObject.version := VUndefined |} in
  exists u' e,
    SidechainObject.constructor env first u = (u', Normal e) /\
    e = {| SidechainObject.sidechain := num 3;
           SidechainObject.hash := VUndefined;
           SidechainObject.script := VUndefined;
           SidechainObject.type := num 1;
           SidechainObject.version := VUndefined |} /\
    forall r,
      SidechainObject.fromOptions env second {| this := e; rt := r |}
      = ({| this := merged; rt := r |}, Normal merged).
Proof.
  do 2 eexists. split; [vm_compute; reflexivity|]. split; [reflexivity|].
  intros r. vm_compute. reflexivity.
Qed.

(** When the options have a hash, the check evaluates the identifier
    [hash], which nothing binds: construction throws a ReferenceError. *)
Lemma SidechainObject_hash_option_throws env (a : nat) (bytes : value)
    (u : world unit) :
  not_nullish bytes = true ->
  snd (SidechainObject.constructor env
         (VObj a false {[ "sidechain" := num 3; "hash" := bytes; "type" := num 1 ]}) u)
  = Throw (ReferenceError "hash").
Proof.
  intros H.
  destruct bytes as [| | | | | | |x c props]; try discriminate H;
    vm_compute; reflexivity.
Qed.

(** A wrong-typed field stops the merge with an assertion error, but the
    fields before it have been assigned by then. *)
Lemma SidechainObject_merge_partial env (a : nat) (e : SidechainObject.instance)
    (r : runtime) :
  SidechainObject.fromOptions env
    (VObj a false {[ "sidechain" := num 7; "type" := VStr "deposit" ]})
    {| this := e; rt := r |}
  = ({| this := {| SidechainObject.sidechain := num 7;
                   SidechainObject.hash := VUndefined;
                   SidechainObject.script := VUndefined;
                   SidechainObject.type := SidechainObject.type e;
                   SidechainObject.version := SidechainObject.version e |};
        rt := r |},
     Throw AssertionError).
Proof. vm_compute. reflexivity. Qed.

(** ** MainchainOptions.fromOptions *)

(** Whenever a merge goes through, every field of the options is what the
    argument holds under its name, [undefined] when it holds nothing. *)
Lemma MainchainOptions_fromOptions_overwrites a c (props : gmap string value)
    (o : MainchainOptions.instance) (r : runtime) w' e :
  MainchainOptions.fromOptions (VObj a c props) {| this := o; rt := r |}
    = (w', Normal e) ->
  e = {| MainchainOptions.network := member props "network";
         MainchainOptions.port := member props "port";
         MainchainOptions.headers := member props "headers";
         MainchainOptions.host := member props "host";
         MainchainOptions.username := member props "username";
         MainchainOptions.password := member props "password" |} /\
  w' = {| this := e; rt := r |}.
Proof.
  unfold MainchainOptions.fromOptions, read, lift, get_prop.
  change (default VUndefined (props !! "network")) with (member props "network").
  change (default VUndefined (props !! "port")) with (member props "port").
  change (default VUndefined (props !! "headers")) with (member props "headers").
  change (default VUndefined (props !! "host")) with (member props "host").
  change (default VUndefined (props !! "username")) with (member props "username").
  change (default VUndefined (props !! "password")) with (member props "password").
  generalize (member props "network") (member props "port")
    (member props "headers") (member props "host") (member props "username")
    (member props "password").
  intros v1 v2 v3 v4 v5 v6.
  unfold when, bind, assert, assign, modify, ret, throw, get_state.
  branches H; injection H as <- <-; split; reflexivity.
Qed.

(** C5. Options built from {host: "node1"} have that host and every other
    field [undefined]: fromOptions first assigns all six fields from the
    options, present or not, so network, port, headers, username and
    password lose their defaults. *)
Theorem MainchainOptions_merge_discards_defaults env (a : nat) (u : world unit) :
  not_nullish (regtest env) = true ->
  snd (MainchainOptions.constructor env (VObj a false {[ "host" := VStr "node1" ]}) u)
  = Normal {| MainchainOptions.network := VUndefined;
              MainchainOptions.port := VUndefined;
              MainchainOptions.headers := VUndefined;
              MainchainOptions.host := VStr "node1";
              MainchainOptions.username := VUndefined;
              MainchainOptions.password := VUndefined |}.
Proof.
  intros H. unfold MainchainOptions.constructor.
  destruct (regtest env) as [| | | | | | |x c props]; try discriminate H;
    vm_compute; reflexivity.
Qed.

Lemma MainchainOptions_merge_discards_defaults_witness :
  snd (MainchainOptions.constructor sample_imports
         (VObj 9 false {[ "host" := VStr "node1" ]}) nowhere)
  = Normal {| MainchainOptions.network := VUndefined;
              MainchainOptions.port := VUndefined;
              MainchainOptions.headers := VUndefined;
              MainchainOptions.host := VStr "node1";
              MainchainOptions.username := VUndefined;
              MainchainOptions.password := VUndefined |}.
Proof.
  apply (MainchainOptions_merge_discards_defaults sample_imports 9%nat nowhere).
  reflexivity.
Defined.

(** With no options at all the defaults stand. *)
Example MainchainOptions_defaults :
  snd (MainchainOptions.constructor sample_imports VUndefined nowhere)
  = Normal {| MainchainOptions.network := regtest sample_imports;
              MainchainOptions.port := num 18443;
              MainchainOptions.headers :=
                VObj 2 false {[ "Content-Type" := VStr "application/json" ]};
              MainchainOptions.host := VStr "localhost";
              MainchainOptions.username := VStr "user";
              MainchainOptions.password := VStr "password" |}.
Proof. vm_compute. reflexivity. Qed.

(** A wrong-typed port is assigned before it is found to be wrong. *)
Lemma MainchainOptions_merge_assigns_before_check (a : nat)
    (o : MainchainOptions.instance) (r : runtime) :
  MainchainOptions.fromOptions (VObj a false {[ "port" := VStr "8332" ]})
    {| this := o; rt := r |}
  = ({| this := {| MainchainOptions.network := VUndefined;
                   MainchainOptions.port := VStr "8332";
                   MainchainOptions.headers := VUndefined;
                   MainchainOptions.host := VUndefined;
                   MainchainOptions.username := VUndefined;
                   MainchainOptions.password := VUndefined |};
        rt := r |},
     Throw AssertionError).
Proof. vm_compute. reflexivity. Qed.

(** ** What the methods leave alone *)

Lemma keeps_maintains {T A} (I : T -> Prop) (m : M (world T) A) :
  keeps_this m -> maintains I m.
Proof. intros H w Hw. now rewrite H. Qed.

Lemma keeps_ret {T A} (a : A) : keeps_this (T := T) (ret a).
Proof. now intros w. Qed.

Lemma keeps_throw {T A} e : keeps_this (T := T) (A := A) (throw e).
Proof. now intros w. Qed.

Lemma keeps_lift {T A} (c : completion A) : keeps_this (T := T) (lift c).
Proof. now intros w. Qed.

Lemma keeps_get_state {T} : keeps_this (T := T) get_state.
Proof. now intros w. Qed.

Lemma keeps_with_runtime {T} f : keeps_this (T := T) (with_runtime f).
Proof. now intros w. Qed.

Lemma keeps_bind {T A B} (m : M (world T) A) (k : A -> M (world T) B) :
  keeps_this m -> (forall a, keeps_this (k a)) -> keeps_this (bind m k).
Proof.
  intros Hm Hk w. unfold bind. specialize (Hm w).
  destruct (m w) as [w' [a|e]]; simpl in *; [now rewrite Hk | exact Hm].
Qed.

Lemma keeps_if {T A} (c : bool) (m1 m2 : M (world T) A) :
  keeps_this m1 -> keeps_this m2 -> keeps_this (if c then m1 else m2).
Proof. now destruct c. Qed.

Lemma keeps_assert {T} c : keeps_this (T := T) (assert c).
Proof. destruct c; now intros w. Qed.

Lemma keeps_read {T} v k : keeps_this (T := T) (read v k).
Proof. apply keeps_lift. Qed.

Lemma keeps_ge {T} env a b : keeps_this (T := T) (ge env a b).
Proof. intros w. now rewrite ge_state. Qed.

Lemma keeps_construct {T U} (init : U) (body : M (world U) unit) :
  keeps_this (T := T) (construct init body).
Proof. intros w. unfold construct. now destruct (body _) as [w' [a|e]]. Qed.

Lemma keeps_async {T} (body : M (world T) value) :
  keeps_this body -> keeps_this (async body).
Proof.
  intros H w. unfold async. specialize (H w).
  destruct (body w) as [w' [v|e]]; rewrite new_promise_run; exact H.
Qed.

Create HintDb frame.
#[local] Hint Resolve keeps_ret keeps_throw keeps_lift keeps_get_state
  keeps_with_runtime keeps_bind keeps_if keeps_assert keeps_read keeps_ge
  keeps_construct keeps_async : frame.

Lemma keeps_fresh {T} : keeps_this (T := T) fresh.
Proof. unfold fresh. auto with frame. Qed.
#[local] Hint Resolve keeps_fresh : frame.

Lemma keeps_new_object {T} props : keeps_this (T := T) (new_object props).
Proof. unfold new_object. auto with frame. Qed.

Lemma keeps_new_promise {T} p : keeps_this (T := T) (new_promise p).
Proof. unfold new_promise. auto with frame. Qed.
#[local] Hint Resolve keeps_new_object keeps_new_promise : frame.

Lemma keeps_execute {T} e m ps : keeps_this (T := T) (execute e m ps).
Proof. unfold execute. auto with frame. Qed.

Lemma keeps_promise_then {T} p cb : keeps_this (T := T) (promise_then p cb).
Proof.
  unfold promise_then. apply keeps_bind; [auto with frame|]. intros w.
  destruct p; auto with frame. destruct (_ !! _); auto with frame.
Qed.

Lemma keeps_write {T} x v : keeps_this (T := T) (write x v).
Proof. unfold write. auto with frame. Qed.

Lemma keeps_variable {T} x : keeps_this (T := T) (variable x).
Proof. unfold variable. auto with frame. Qed.

Lemma keeps_and_then {T} a (b : M (world T) bool) :
  keeps_this b -> keeps_this (and_then a b).
Proof. unfold and_then. auto with frame. Qed.

Lemma keeps_or_else {T} a (b : M (world T) bool) :
  keeps_this b -> keeps_this (or_else a b).
Proof. unfold or_else. auto with frame. Qed.

Lemma keeps_length_is {T} v n : keeps_this (T := T) (length_is v n).
Proof. unfold length_is. auto with frame. Qed.

Lemma keeps_new_Amount {T} env v :
  keeps_this (T := T) (MainchainClient.new_Amount env v).
Proof. unfold MainchainClient.new_Amount. auto with frame. Qed.

Lemma keeps_Amount_toString_of {T} env v :
  keeps_this (T := T) (MainchainClient.Amount_toString_of env v).
Proof. unfold MainchainClient.Amount_toString_of. auto with frame. Qed.

#[local] Hint Resolve keeps_execute keeps_promise_then keeps_write
  keeps_variable keeps_and_then keeps_or_else keeps_length_is
  keeps_new_Amount keeps_Amount_toString_of : frame.

Lemma keeps_close frames : keeps_this (MainchainClient.close frames).
Proof. induction frames; simpl; auto with frame. Qed.

(** No method of the client assigns to a field of the client. *)
Lemma keeps_perform env op : keeps_this (MainchainClient.perform env op).
Proof.
  destruct op; simpl; try apply keeps_close;
    unfold MainchainClient.open, MainchainClient.broadcastWithdrawalBundle,
      MainchainClient.verifyBMM, MainchainClient.getMainchainInfo,
      MainchainClient.getMainchainTip, MainchainClient.getMainchainBlockHash,
      MainchainClient.getSidechainTip, MainchainClient.getRecentBlockHashes,
      MainchainClient.hasSpentWithdrawal, MainchainClient.hasFailedWithdrawal,
      MainchainClient.getWorkScore, MainchainClient.getAverageMainchainFees,
      MainchainClient.getWithdrawalBundleStatus, MainchainClient.verifyDeposit,
      MainchainClient.sendBMMRequest, MainchainClient.createSidechainProposal,
      MainchainClient.createSidechainDeposit,
      MainchainClient.getSidechainActivationStatus,
      MainchainClient.isConnected, MainchainClient.getBlockCount, declare;
    auto 60 with frame.
Qed.

(** ** The flag [opened] *)

Lemma bind_inv_normal {S A B} (m : M S A) (k : A -> M S B) s s' b :
  bind m k s = (s', Normal b) ->
  exists s1 a, m s = (s1, Normal a) /\ k a s1 = (s', Normal b).
Proof.
  unfold bind. destruct (m s) as [s1 [a|e]]; [eauto | discriminate].
Qed.

Lemma construct_inv_normal {T U} (init : T) (body : M (world T) unit)
    (u u' : world U) (c : T) :
  construct init body u = (u', Normal c) ->
  exists w, body {| this := init; rt := rt u |} = (w, Normal tt) /\ c = this w.
Proof.
  unfold construct. destruct (body _) as [w [[]|e]]; [|discriminate].
  intros [= _ <-]. eauto.
Qed.

Lemma maintains_bind {T A B} (I : T -> Prop) (m : M (world T) A)
    (k : A -> M (world T) B) :
  maintains I m -> (forall a, maintains I (k a)) -> maintains I (bind m k).
Proof.
  intros Hm Hk w Hw. unfold bind. specialize (Hm w Hw).
  destruct (m w) as [w' [a|e]]; simpl in *; [now apply Hk | exact Hm].
Qed.

Lemma maintains_modify {T} (I : T -> Prop) (f : world T -> world T) :
  (forall w, I (this w) -> I (this (f w))) -> maintains I (modify f).
Proof. intros H w Hw. now apply H. Qed.

Lemma maintains_assign {T} (I : T -> Prop) (set : value -> T -> T) v :
  (forall o, I o -> I (set v o)) -> maintains I (assign set v).
Proof. intros H. apply maintains_modify. intros w. apply H. Qed.

(** The constructor sets [opened] to [false], and nothing after that in
    its body touches the flag. *)
Lemma constructor_not_opened env (opts : value) (u u' : world unit) c :
  MainchainClient.constructor env opts u = (u', Normal c) -> not_opened c.
Proof.
  unfold MainchainClient.constructor. intros H.
  apply bind_inv_normal in H as (u1 & a & _ & H).
  apply construct_inv_normal in H as (w & H & ->).
  apply bind_inv_normal in H as (w1 & [] & _ & H).
  apply bind_inv_normal in H as (w2 & [] & H2 & H).
  assert (I2 : not_opened (this w2)) by now injection H2 as <-.
  match type of H with
  | ?m w2 = _ => assert (Hm : maintains not_opened m)
  end.
  { repeat first
      [ apply maintains_bind; [|intros ?]
      | apply maintains_assign; now intros o Ho
      | apply maintains_modify; now intros o Ho
      | apply keeps_maintains;
        unfold MainchainClient.the_options, MainchainOptions.constructor;
        now auto with frame ]. }
  specialize (Hm w2 I2). now rewrite H in Hm.
Qed.

(** C10. [opened] is [false] in every state a client can be in: the
    constructor sets it, open() returns the client without assigning it,
    close() and the other methods assign no field at all. *)
Theorem opened_stays_false env (w : world MainchainClient.instance) :
  MainchainClient.reachable env w -> MainchainClient.opened (this w) = VBool false.
Proof.
  induction 1 as [u u' opts c H | w op _ IH | w reply _ IH].
  - exact (constructor_not_opened env opts u u' c H).
  - simpl. rewrite (keeps_perform env op w). exact IH.
  - exact IH.
Qed.

(** open() fulfils its promise with the client and changes nothing else. *)
Lemma open_returns_client (w : world MainchainClient.instance) :
  MainchainClient.open w =
    new_promise (ResolvedWith (MainchainClient.as_value (this w))) w.
Proof. reflexivity. Qed.

(** A client does get constructed, and its flag reads [false]. *)
Example sample_client_reachable :
  MainchainClient.reachable sample_imports sample_client /\
  MainchainClient.opened (this sample_client) = VBool false.
Proof.
  split; [|vm_compute; reflexivity].
  set (run := MainchainClient.constructor sample_imports VUndefined nowhere).
  assert (E : run = (fst run, Normal (this sample_client)))
    by (vm_compute; reflexivity).
  assert (E' : sample_client = {| this := this sample_client; rt := rt (fst run) |})
    by (vm_compute; reflexivity).
  rewrite E'. exact (MainchainClient.reach_constructor _ _ _ _ _ E).
Qed.

(** C10, for the sample client after open() and then a close() that has
    three frames to use up. *)
Lemma opened_stays_false_witness :
  MainchainClient.opened
    (this (fst (MainchainClient.perform sample_imports (MainchainClient.Close 3)
                  (fst (MainchainClient.perform sample_imports MainchainClient.Open
                          sample_client)))))
  = VBool false.
Proof.
  apply (opened_stays_false sample_imports).
  do 2 apply MainchainClient.reach_perform.
  apply sample_client_reachable.
Defined.

(** * Further properties of the client *)

(** ** What reaches the transport *)

Lemma silent_ret {T A} (a : A) : silent (T := T) (ret a).
Proof. now intros w. Qed.

Lemma silent_throw {T A} e : silent (T := T) (A := A) (throw e).
Proof. now intros w. Qed.

Lemma silent_lift {T A} (c : completion A) : silent (T := T) (lift c).
Proof. now intros w. Qed.

Lemma silent_get_state {T} : silent (T := T) get_state.
Proof. now intros w. Qed.

Lemma silent_bind {T A B} (m : M (world T) A) (k : A -> M (world T) B) :
  silent m -> (forall a, silent (k a)) -> silent (bind m k).
Proof.
  intros Hm Hk w. unfold bind. specialize (Hm w).
  destruct (m w) as [w' [a|e]]; simpl in *; [now rewrite Hk | exact Hm].
Qed.

Lemma silent_if {T A} (c : bool) (m1 m2 : M (world T) A) :
  silent m1 -> silent m2 -> silent (if c then m1 else m2).
Proof. now destruct c. Qed.

Lemma silent_assert {T} c : silent (T := T) (assert c).
Proof. destruct c; now intros w. Qed.

Lemma silent_ge {T} env a b : silent (T := T) (ge env a b).
Proof. intros w. now rewrite ge_state. Qed.

Lemma silent_fresh {T} : silent (T := T) fresh.
Proof. now intros w. Qed.

Lemma silent_new_promise {T} p : silent (T := T) (new_promise p).
Proof. now intros w. Qed.

Create HintDb wire.
#[local] Hint Resolve silent_ret silent_throw silent_lift silent_get_state
  silent_bind silent_if silent_assert silent_ge silent_fresh
  silent_new_promise : wire.

Lemma silent_read {T} v k : silent (T := T) (read v k).
Proof. unfold read. auto with wire. Qed.

Lemma silent_new_object {T} props : silent (T := T) (new_object props).
Proof. unfold new_object. auto with wire. Qed.
#[local] Hint Resolve silent_read silent_new_object : wire.

Lemma silent_and_then {T} a (b : M (world T) bool) :
  silent b -> silent (and_then a b).
Proof. unfold and_then. auto with wire. Qed.

Lemma silent_or_else {T} a (b : M (world T) bool) :
  silent b -> silent (or_else a b).
Proof. unfold or_else. auto with wire. Qed.

Lemma silent_length_is {T} v n : silent (T := T) (length_is v n).
Proof. unfold length_is. auto with wire. Qed.

Lemma silent_new_Amount {T} env v :
  silent (T := T) (MainchainClient.new_Amount env v).
Proof. unfold MainchainClient.new_Amount. auto with wire. Qed.

Lemma silent_Amount_toString_of {T} env v :
  silent (T := T) (MainchainClient.Amount_toString_of env v).
Proof. unfold MainchainClient.Amount_toString_of. auto with wire. Qed.

#[local] Hint Resolve silent_and_then silent_or_else silent_length_is
  silent_new_Amount silent_Amount_toString_of : wire.

Lemma forwards_execute {T} meth ps : forwards (T := T) meth (execute "/" meth ps).
Proof.
  intros w. rewrite execute_run, new_promise_run. exists ps. eexists.
  split; [reflexivity|]. split; [reflexivity|]. split; [|reflexivity].
  simpl. apply lookup_insert_eq.
Qed.

Lemma forwards_bind {T A} meth (m : M (world T) A) (k : A -> M (world T) value) :
  silent m -> (forall a, forwards meth (k a)) -> forwards meth (bind m k).
Proof.
  intros Hm Hk w. unfold bind. specialize (Hm w).
  destruct (m w) as [w1 [a|e]]; simpl in Hm; [|exact Hm].
  specialize (Hk a w1). destruct (k a w1) as [w' [p|e]]; now rewrite <- Hm.
Qed.

#[local] Hint Resolve forwards_execute forwards_bind : wire.

(** A method that is not [async] and forwards its call either throws with
    nothing dispatched, or returns the promise of the transport. *)
Lemma forwards_call {T} meth (m : M (world T) value) (w : world T) :
  forwards meth m ->
  (refused (m w) /\ dispatched (rt (fst (m w))) = dispatched (rt w)) \/
  answered meth w (m w).
Proof.
  intros H. specialize (H w). unfold refused, answered.
  destruct (m w) as [w' [p|e]]; simpl; [right | now left].
  destruct H as (ps & a & -> & _ & Ha & Hd).
  exists ps. eexists. split; [reflexivity|]. split; [exact Hd|].
  intros reply. simpl. now rewrite Ha.
Qed.

(** The same behind [async]: the error, if any, is in the promise. *)
Lemma forwards_async_call {T} meth (m : M (world T) value) (w : world T) :
  forwards meth m ->
  (refused (async m w) /\ dispatched (rt (fst (async m w))) = dispatched (rt w)) \/
  answered meth w (async m w).
Proof.
  intros H. specialize (H w). unfold refused, answered, async.
  destruct (m w) as [w' [p|e]]; rewrite new_promise_run; simpl.
  - right. destruct H as (ps & a & -> & Hn & Ha & Hd).
    exists ps. eexists. split; [reflexivity|]. split; [exact Hd|].
    intros reply. rewrite lookup_insert_eq.
    rewrite lookup_insert_ne by lia. now rewrite Ha.
  - left. split; [|exact H]. eexists. apply lookup_insert_eq.
Qed.

(** The two ends of an operation that forwards its call. *)
Lemma perform_refused_or_answered env (op : MainchainClient.operation)
    (meth : string) (w : world MainchainClient.instance) :
  rpc_method op = Some meth ->
  op <> MainchainClient.IsConnected ->
  (refused (MainchainClient.perform env op w) /\
   dispatched (rt (fst (MainchainClient.perform env op w))) = dispatched (rt w)) \/
  answered meth w (MainchainClient.perform env op w).
Proof.
  intros Hm Hop.
  destruct op; simpl in Hm; try discriminate Hm; try congruence;
    injection Hm as <-; simpl MainchainClient.perform;
    unfold MainchainClient.broadcastWithdrawalBundle, MainchainClient.verifyBMM,
      MainchainClient.getMainchainInfo, MainchainClient.getMainchainTip,
      MainchainClient.getMainchainBlockHash, MainchainClient.getSidechainTip,
      MainchainClient.getRecentBlockHashes, MainchainClient.getBlockCount,
      MainchainClient.hasSpentWithdrawal, MainchainClient.hasFailedWithdrawal,
      MainchainClient.getWorkScore, MainchainClient.getAverageMainchainFees,
      MainchainClient.getWithdrawalBundleStatus, MainchainClient.verifyDeposit,
      MainchainClient.sendBMMRequest, MainchainClient.createSidechainProposal,
      MainchainClient.createSidechainDeposit,
      MainchainClient.getSidechainActivationStatus;
    first [ apply forwards_async_call | apply forwards_call ];
    auto 60 with wire.
Qed.

(** X1. Every operation bound to an RPC method, isConnected apart, has one
    of two ends.  Either the client refuses the call (an assertion or a
    conversion fails: it throws, or returns a promise already rejected) and
    nothing has been dispatched; or exactly one call of the operation's own
    method went out on "/", behind the calls dispatched earlier, and the
    promise returned settles exactly as the transport answers that call. *)
Theorem operation_refused_or_answered env (op : MainchainClient.operation)
    (meth : string) (w : world MainchainClient.instance) :
  rpc_method op = Some meth ->
  op <> MainchainClient.IsConnected ->
  (refused (MainchainClient.perform env op w) /\
   dispatched (rt (fst (MainchainClient.perform env op w))) = dispatched (rt w)) \/
  answered meth w (MainchainClient.perform env op w).
Proof. apply perform_refused_or_answered. Qed.

Lemma operation_refused_or_answered_witness :
  answered "verifybmm" sample_client
    (MainchainClient.perform sample_imports
       (MainchainClient.VerifyBMM (VStr a64) (VStr b64) (num 0)) sample_client)
  /\
  refused
    (MainchainClient.perform sample_imports
       (MainchainClient.HasSpentWithdrawal (VStr "abc") (num 0)) sample_client).
Proof.
  split.
  - destruct (operation_refused_or_answered sample_imports
                (MainchainClient.VerifyBMM (VStr a64) (VStr b64) (num 0))
                "verifybmm" sample_client eq_refl ltac:(discriminate))
      as [[_ H]|H]; [|exact H].
    vm_compute in H. discriminate H.
  - destruct (operation_refused_or_answered sample_imports
                (MainchainClient.HasSpentWithdrawal (VStr "abc") (num 0))
                "havespentwithdrawal" sample_client eq_refl ltac:(discriminate))
      as [[H _]|(ps & p & H & _)]; [exact H|].
    vm_compute in H. discriminate H.
Defined.

Lemma silent_async {T} (body : M (world T) value) :
  silent body -> silent (async body).
Proof.
  intros H w. unfold async. specialize (H w).
  destruct (body w) as [w' [v|e]]; rewrite new_promise_run; exact H.
Qed.

Lemma silent_close frames : silent (MainchainClient.close frames).
Proof.
  induction frames; simpl; [apply silent_throw | now apply silent_async].
Qed.

(** What one operation adds to the calls dispatched: nothing, or one call
    of its method. *)
Lemma perform_appends env (op : MainchainClient.operation)
    (w : world MainchainClient.instance) :
  exists l,
    dispatched (rt (fst (MainchainClient.perform env op w)))
      = (dispatched (rt w) ++ l)%list /\
    (length l <= 1)%nat /\
    Forall (fun c => endpoint c = "/" /\ rpc_method op = Some (method c)) l.
Proof.
  destruct (rpc_method op) as [meth|] eqn:Hm.
  - assert (op = MainchainClient.IsConnected \/ op <> MainchainClient.IsConnected)
      as [->|Hop] by (destruct op; (now left) || (right; discriminate)).
    + simpl. rewrite isConnected_run. exists [getblockcount_call].
      split; [reflexivity|]. split; [simpl; lia|]. now repeat constructor.
    + destruct (perform_refused_or_answered env op meth w Hm Hop)
        as [[_ H]|(ps & p & _ & H & _)].
      * exists []. rewrite H, app_nil_r. split; [reflexivity|].
        split; [simpl; lia | constructor].
      * exists [rpc meth ps]. split; [exact H|]. split; [simpl; lia|].
        now repeat constructor.
  - exists []. rewrite app_nil_r. split; [|split; [simpl; lia | constructor]].
    destruct op; try discriminate Hm.
    + reflexivity.
    + apply (silent_close frames w).
Qed.


(** ** The checks of each query *)

Lemma sends_execute {T} meth ps (w : world T) run :
  run = execute "/" meth ps w -> sends meth ps w run.
Proof.
  intros ->. rewrite execute_run, new_promise_run. eexists.
  split; [reflexivity|]. split; [reflexivity|]. split; [reflexivity|].
  intros reply. simpl. now rewrite lookup_insert_eq.
Qed.

Lemma sends_async {T} meth ps (body : M (world T) value) (w : world T) :
  body w = execute "/" meth ps w -> sends meth ps w (async body w).
Proof.
  intros H. unfold async. rewrite H, execute_run, !new_promise_run. eexists.
  split; [reflexivity|]. split; [reflexivity|]. split; [reflexivity|].
  intros reply. simpl. rewrite lookup_insert_eq.
  rewrite lookup_insert_ne by lia. now rewrite lookup_insert_eq.
Qed.

Lemma fails_async {T} (body : M (world T) value) (w : world T) :
  body w = (w, Throw AssertionError) -> fails_validation w (async body w).
Proof. intros H. erewrite async_throw by exact H. apply rejected_promise_fails. Qed.

Lemma length_eqb_64 (h : string) :
  (Z.of_nat (String.length h) =? 64) = bool_decide (String.length h = 64%nat).
Proof.
  case_bool_decide as E.
  - rewrite E. reflexivity.
  - apply Z.eqb_neq. lia.
Qed.

(** The three checks of verifyBMM, on two strings and an integer. *)
Lemma verifyBMM_body env (hm hb : string) (s : Z) {T} (w : world T) :
  (c <- and_then (String.eqb (typeof (VStr hm)) "string") (length_is (VStr hm) 64);;
   assert c;;
   c <- and_then (String.eqb (typeof (VStr hb)) "string") (length_is (VStr hb) 64);;
   assert c;;
   c <- ge env (num s) (num 0);; assert c;;
   execute "/" "verifybmm" [VStr hm; VStr hb; num s]) w
  = if bool_decide (String.length hm = 64%nat)
       && bool_decide (String.length hb = 64%nat) && (0 <=? s)
    then execute "/" "verifybmm" [VStr hm; VStr hb; num s] w
    else (w, Throw AssertionError).
Proof.
  rewrite (bind_normal _ _ _ _ _ (hash_check_string hm w)), length_eqb_64.
  destruct (bool_decide (String.length hm = 64%nat));
    [rewrite assert_true | now rewrite assert_false].
  rewrite (bind_normal _ _ _ _ _ (hash_check_string hb w)), length_eqb_64.
  destruct (bool_decide (String.length hb = 64%nat));
    [rewrite assert_true | now rewrite assert_false].
  rewrite (bind_normal _ _ _ _ _ (ge_integer_zero env s w)).
  destruct (0 <=? s); [now rewrite assert_true | now rewrite assert_false].
Qed.

(** X3. verifyBMM with two strings and an integer sidechain number: when
    both strings have 64 characters and the number is not negative, one call
    verifybmm [hashMainBlock, hashBMM, sidechain] goes out; when either
    string has another length or the number is negative, the promise is
    rejected with the assertion error and nothing goes out. *)
Theorem verifyBMM_dispatch env (hm hb : string) (s : Z)
    (w : world MainchainClient.instance) :
  (String.length hm = 64%nat -> String.length hb = 64%nat -> 0 <= s ->
   sends "verifybmm" [VStr hm; VStr hb; num s] w
     (MainchainClient.verifyBMM env (VStr hm) (VStr hb) (num s) w)) /\
  (String.length hm <> 64%nat \/ String.length hb <> 64%nat \/ s < 0 ->
   fails_validation w
     (MainchainClient.verifyBMM env (VStr hm) (VStr hb) (num s) w)).
Proof.
  unfold MainchainClient.verifyBMM. split.
  - intros H1 H2 Hs. apply sends_async. rewrite verifyBMM_body.
    rewrite !bool_decide_eq_true_2 by assumption.
    now rewrite (proj2 (Z.leb_le 0 s) Hs).
  - intros H. apply fails_async. rewrite verifyBMM_body.
    destruct H as [H|[H|H]].
    + now rewrite (bool_decide_eq_false_2 _ H).
    + rewrite (bool_decide_eq_false_2 _ H). now rewrite andb_false_r.
    + rewrite (proj2 (Z.leb_gt 0 s) H). now rewrite andb_false_r.
Qed.

Lemma verifyBMM_dispatch_witness :
  sends "verifybmm" [VStr a64; VStr b64; num 0] sample_client
    (MainchainClient.verifyBMM sample_imports (VStr a64) (VStr b64) (num 0)
       sample_client) /\
  fails_validation sample_client
    (MainchainClient.verifyBMM sample_imports (VStr a64) (VStr b64) (num (-1))
       sample_client).
Proof.
  split.
  - apply (proj1 (verifyBMM_dispatch sample_imports a64 b64 0 sample_client));
      [reflexivity | reflexivity | lia].
  - apply (proj2 (verifyBMM_dispatch sample_imports a64 b64 (-1) sample_client)).
    right. right. lia.
Defined.

(** X4. The four queries without parameters never refuse: each sends one
    call of its method with an empty parameter list and returns a promise
    that settles as the transport replies. *)
Theorem parameterless_queries_dispatch (w : world MainchainClient.instance) :
  sends "getblockchaininfo" [] w (MainchainClient.getMainchainInfo w) /\
  sends "getbestblockhash" [] w (MainchainClient.getMainchainTip w) /\
  sends "listpreviousblockhashes" [] w (MainchainClient.getRecentBlockHashes w) /\
  sends "getblockcount" [] w (MainchainClient.getBlockCount w).
Proof. repeat split; now apply sends_async. Qed.

(** X5. getMainchainBlockHash and getSidechainTip test the type of their
    argument and nothing more: every number, negative, fractional or NaN
    included, is sent on as the one parameter, and every value of another
    type is refused with the assertion error and nothing dispatched. *)
Theorem number_queries_check_type (v : value) (w : world MainchainClient.instance) :
  (typeof v = "number" ->
   sends "getblockhash" [v] w (MainchainClient.getMainchainBlockHash v w) /\
   sends "listsidechainctip" [v] w (MainchainClient.getSidechainTip v w)) /\
  (typeof v <> "number" ->
   fails_validation w (MainchainClient.getMainchainBlockHash v w) /\
   fails_validation w (MainchainClient.getSidechainTip v w)).
Proof.
  unfold MainchainClient.getMainchainBlockHash, MainchainClient.getSidechainTip.
  split; intros H.
  - split; apply sends_async; rewrite H; reflexivity.
  - apply String.eqb_neq in H.
    split; apply fails_async; rewrite H; reflexivity.
Qed.

Lemma number_queries_check_type_witness :
  (sends "getblockhash" [num (-7)] sample_client
     (MainchainClient.getMainchainBlockHash (num (-7)) sample_client) /\
   sends "listsidechainctip" [num (-7)] sample_client
     (MainchainClient.getSidechainTip (num (-7)) sample_client)) /\
  (fails_validation sample_client
     (MainchainClient.getMainchainBlockHash (VStr "7") sample_client) /\
   fails_validation sample_client
     (MainchainClient.getSidechainTip (VStr "7") sample_client)).
Proof.
  split.
  - apply (proj1 (number_queries_check_type (num (-7)) sample_client)).
    reflexivity.
  - apply (proj2 (number_queries_check_type (VStr "7") sample_client)).
    discriminate.
Defined.

(** The two checks of hasSpentWithdrawal and hasFailedWithdrawal, on a
    string and an integer. *)
Lemma withdrawal_query_body env meth (h : string) (s : Z) {T} (w : world T) :
  (c <- and_then (String.eqb (typeof (VStr h)) "string") (length_is (VStr h) 64);;
   assert c;;
   c <- ge env (num s) (num 0);; assert c;;
   execute "/" meth [VStr h; num s]) w
  = if bool_decide (String.length h = 64%nat) && (0 <=? s)
    then execute "/" meth [VStr h; num s] w
    else (w, Throw AssertionError).
Proof.
  rewrite (bind_normal _ _ _ _ _ (hash_check_string h w)), length_eqb_64.
  destruct (bool_decide (String.length h = 64%nat));
    [rewrite assert_true | now rewrite assert_false].
  rewrite (bind_normal _ _ _ _ _ (ge_integer_zero env s w)).
  destruct (0 <=? s); [now rewrite assert_true | now rewrite assert_false].
Qed.

(** X6. hasSpentWithdrawal and hasFailedWithdrawal are not [async]: with a
    string of 64 characters and an integer [s >= 0] each sends its one call
    [hash, sidechain] and returns the promise of the transport itself; with
    a string of another length or a negative number each throws the
    assertion error to its caller, and leaves no promise and no call
    behind. *)
Theorem withdrawal_queries_dispatch env (h : string) (s : Z)
    (w : world MainchainClient.instance) :
  (String.length h = 64%nat -> 0 <= s ->
   sends "havespentwithdrawal" [VStr h; num s] w
     (MainchainClient.hasSpentWithdrawal env (VStr h) (num s) w) /\
   sends "havefailedwithdrawal" [VStr h; num s] w
     (MainchainClient.hasFailedWithdrawal env (VStr h) (num s) w)) /\
  (String.length h <> 64%nat \/ s < 0 ->
   MainchainClient.hasSpentWithdrawal env (VStr h) (num s) w
     = (w, Throw AssertionError) /\
   MainchainClient.hasFailedWithdrawal env (VStr h) (num s) w
     = (w, Throw AssertionError)).
Proof.
  unfold MainchainClient.hasSpentWithdrawal, MainchainClient.hasFailedWithdrawal.
  rewrite !withdrawal_query_body. split.
  - intros H Hs. rewrite (bool_decide_eq_true_2 _ H), (proj2 (Z.leb_le 0 s) Hs).
    split; now apply sends_execute.
  - intros [H|H].
    + now rewrite (bool_decide_eq_false_2 _ H).
    + now rewrite (proj2 (Z.leb_gt 0 s) H), andb_false_r.
Qed.

Lemma withdrawal_queries_dispatch_witness :
  (sends "havespentwithdrawal" [VStr a64; num 2] sample_client
     (MainchainClient.hasSpentWithdrawal sample_imports (VStr a64) (num 2)
        sample_client) /\
   sends "havefailedwithdrawal" [VStr a64; num 2] sample_client
     (MainchainClient.hasFailedWithdrawal sample_imports (VStr a64) (num 2)
        sample_client)) /\
  (MainchainClient.hasSpentWithdrawal sample_imports (VStr "abc") (num 2)
     sample_client = (sample_client, Throw AssertionError) /\
   MainchainClient.hasFailedWithdrawal sample_imports (VStr "abc") (num 2)
     sample_client = (sample_client, Throw AssertionError)).
Proof.
  split.
  - apply (proj1 (withdrawal_queries_dispatch sample_imports a64 2 sample_client));
      [reflexivity | lia].
  - apply (proj2 (withdrawal_queries_dispatch sample_imports "abc" 2 sample_client)).
    left. simpl. lia.
Defined.

(** X7. getWorkScore and getAverageMainchainFees test types only.
    getWorkScore sends [sidechain, hash] for every number and every string,
    whatever the length of the string; getAverageMainchainFees sends
    [blocks] for every number, zero and negative ones included.  An
    argument of another type makes them throw the assertion error to the
    caller with nothing dispatched. *)
Theorem type_checked_queries (sidechain hash blocks : value)
    (w : world MainchainClient.instance) :
  (typeof sidechain = "number" -> typeof hash = "string" ->
   sends "getworkscore" [sidechain; hash] w
     (MainchainClient.getWorkScore sidechain hash w)) /\
  (typeof sidechain <> "number" \/ typeof hash <> "string" ->
   MainchainClient.getWorkScore sidechain hash w = (w, Throw AssertionError)) /\
  (typeof blocks = "number" ->
   sends "getaveragefee" [blocks] w
     (MainchainClient.getAverageMainchainFees blocks w)) /\
  (typeof blocks <> "number" ->
   MainchainClient.getAverageMainchainFees blocks w = (w, Throw AssertionError)).
Proof.
  unfold MainchainClient.getWorkScore, MainchainClient.getAverageMainchainFees.
  repeat split.
  - intros H1 H2. apply sends_execute. now rewrite H1, H2.
  - intros [H|H]; apply String.eqb_neq in H; rewrite H; [reflexivity|].
    now destruct (String.eqb (typeof sidechain) "number").
  - intros H. apply sends_execute. now rewrite H.
  - intros H. apply String.eqb_neq in H. now rewrite H.
Qed.

Lemma type_checked_queries_witness :
  sends "getworkscore" [num (-1); VStr ""] sample_client
    (MainchainClient.getWorkScore (num (-1)) (VStr "") sample_client) /\
  MainchainClient.getWorkScore (VStr "1") (VStr a64) sample_client
    = (sample_client, Throw AssertionError) /\
  sends "getaveragefee" [num 0] sample_client
    (MainchainClient.getAverageMainchainFees (num 0) sample_client) /\
  MainchainClient.getAverageMainchainFees VNull sample_client
    = (sample_client, Throw AssertionError).
Proof.
  pose proof (type_checked_queries (num (-1)) (VStr "") (num 0) sample_client)
    as (H1 & _ & H3 & _).
  pose proof (type_checked_queries (VStr "1") (VStr a64) VNull sample_client)
    as (_ & H2 & _ & H4).
  split; [apply H1; reflexivity|].
  split; [apply H2; left; discriminate|].
  split; [apply H3; reflexivity | apply H4; discriminate].
Defined.

(** X8. getWithdrawalBundleStatus and getSidechainActivationStatus, on an
    integer: a sidechain number that is not negative is sent on as the one
    parameter; a negative one is refused with nothing dispatched, by a
    rejected promise in the first ([async]) and by a throw in the second. *)
Theorem sidechain_queries_dispatch env (s : Z) (w : world MainchainClient.instance) :
  (0 <= s ->
   sends "listwithdrawalstatus" [num s] w
     (MainchainClient.getWithdrawalBundleStatus env (num s) w) /\
   sends "getsidechainactivationstatus" [num s] w
     (MainchainClient.getSidechainActivationStatus env (num s) w)) /\
  (s < 0 ->
   fails_validation w (MainchainClient.getWithdrawalBundleStatus env (num s) w) /\
   MainchainClient.getSidechainActivationStatus env (num s) w
     = (w, Throw AssertionError)).
Proof.
  unfold MainchainClient.getWithdrawalBundleStatus,
    MainchainClient.getSidechainActivationStatus.
  split; intros Hs.
  - apply Z.leb_le in Hs. split; [apply sends_async | apply sends_execute];
      now rewrite (bind_normal _ _ _ _ _ (ge_integer_zero env s w)), Hs, assert_true.
  - apply Z.leb_gt in Hs. split; [apply fails_async|];
      now rewrite (bind_normal _ _ _ _ _ (ge_integer_zero env s w)), Hs, assert_false.
Qed.

Lemma sidechain_queries_dispatch_witness :
  (sends "listwithdrawalstatus" [num 0] sample_client
     (MainchainClient.getWithdrawalBundleStatus sample_imports (num 0) sample_client) /\
   sends "getsidechainactivationstatus" [num 0] sample_client
     (MainchainClient.getSidechainActivationStatus sample_imports (num 0)
        sample_client)) /\
  (fails_validation sample_client
     (MainchainClient.getWithdrawalBundleStatus sample_imports (num (-3))
        sample_client) /\
   MainchainClient.getSidechainActivationStatus sample_imports (num (-3))
     sample_client = (sample_client, Throw AssertionError)).
Proof.
  split.
  - apply (proj1 (sidechain_queries_dispatch sample_imports 0 sample_client)). lia.
  - apply (proj2 (sidechain_queries_dispatch sample_imports (-3) sample_client)).
    lia.
Defined.

(** X9. The check [sidechain >= 0] converts its operand.  In
    getSidechainActivationStatus, [null] and the booleans pass (they convert
    to 0 or 1) and are sent on as they are; [undefined], NaN and every
    string that is no numeric literal fail the assertion; a symbol makes the
    comparison itself throw a TypeError.  Nothing is dispatched in the last
    two cases. *)
Theorem sidechain_check_converts env (b : bool) (id : nat) (t : string)
    (w : world MainchainClient.instance) :
  sends "getsidechainactivationstatus" [VNull] w
    (MainchainClient.getSidechainActivationStatus env VNull w) /\
  sends "getsidechainactivationstatus" [VBool b] w
    (MainchainClient.getSidechainActivationStatus env (VBool b) w) /\
  MainchainClient.getSidechainActivationStatus env VUndefined w
    = (w, Throw AssertionError) /\
  MainchainClient.getSidechainActivationStatus env (VNum NaN) w
    = (w, Throw AssertionError) /\
  (StringToNumber t = NaN ->
   MainchainClient.getSidechainActivationStatus env (VStr t) w
     = (w, Throw AssertionError)) /\
  MainchainClient.getSidechainActivationStatus env (VSymbol id) w
    = (w, Throw TypeError).
Proof.
  unfold MainchainClient.getSidechainActivationStatus.
  split; [now apply sends_execute|].
  split; [apply sends_execute; now destruct b|].
  split; [reflexivity|]. split; [reflexivity|]. split; [|reflexivity].
  intros H. unfold ge, bind, lift, primitive, less_than, ToNumeric. simpl.
  now rewrite H.
Qed.

Lemma sidechain_check_converts_witness :
  MainchainClient.getSidechainActivationStatus sample_imports (VStr "one")
    sample_client = (sample_client, Throw AssertionError).
Proof.
  apply (sidechain_check_converts sample_imports true 0 "one" sample_client).
  reflexivity.
Defined.

(** [num a >= num b] for two integers *)
Lemma ge_integers {S} env (a b : Z) (s : S) :
  ge env (num a) (num b) s = (s, Normal (b <=? a)).
Proof.
  unfold ge, bind, lift, ret, primitive, num, less_than, ToNumeric,
    as_number, number_lt, Qle_bool, inject_Z. simpl.
  rewrite !Z.mul_1_r. now destruct (b <=? a).
Qed.

(** X10. createSidechainDeposit, for an integer sidechain number and a
    string address.  With [s >= 0] the amount goes through [Amount]: if
    that accepts it, one call [sidechain, addr, amount string, fee] goes
    out, whatever the address (the empty string included) and whatever the
    fee, which is never looked at; if [Amount] throws, its error reaches the
    caller and nothing goes out.  With [s < 0] the assertion fails before
    the amount is looked at. *)
Theorem createSidechainDeposit_dispatch env (s : Z) (addr : string)
    (amount fee x : value) (e : error) (w : world MainchainClient.instance) :
  (0 <= s -> Amount_fromOptions env amount = Normal x ->
   sends "createsidechaindeposit"
     [num s; VStr addr; Amount_toString env x; fee] w
     (MainchainClient.createSidechainDeposit env (num s) (VStr addr) amount fee w)) /\
  (0 <= s -> Amount_fromOptions env amount = Throw e ->
   MainchainClient.createSidechainDeposit env (num s) (VStr addr) amount fee w
     = (w, Throw e)) /\
  (s < 0 ->
   MainchainClient.createSidechainDeposit env (num s) (VStr addr) amount fee w
     = (w, Throw AssertionError)).
Proof.
  unfold MainchainClient.createSidechainDeposit.
  rewrite (bind_normal _ _ _ _ _ (ge_integer_zero env s w)).
  change (String.eqb (typeof (VStr addr)) "string") with true.
  repeat split.
  - intros Hs Hx. apply Z.leb_le in Hs. rewrite Hs, !assert_true.
    unfold MainchainClient.new_Amount. rewrite Hx. cbn.
    rewrite lookup_singleton_eq. eexists.
    split; [reflexivity|]. split; [reflexivity|]. split; [reflexivity|].
    intros reply. cbn -[lookup insert]. now rewrite lookup_insert_eq.
  - intros Hs Hx. apply Z.leb_le in Hs. rewrite Hs, !assert_true.
    unfold MainchainClient.new_Amount. now rewrite Hx.
  - intros Hs. apply Z.leb_gt in Hs. now rewrite Hs, assert_false.
Qed.

Lemma createSidechainDeposit_dispatch_witness :
  sends "createsidechaindeposit" [num 0; VStr ""; VStr "0.00001"; VUndefined]
    sample_client
    (MainchainClient.createSidechainDeposit sample_imports (num 0) (VStr "")
       (num 1000) VUndefined sample_client) /\
  MainchainClient.createSidechainDeposit sample_imports (num 0) (VStr "")
    (VStr "1000") VUndefined sample_client
    = (sample_client, Throw (HostError "Amount")) /\
  MainchainClient.createSidechainDeposit sample_imports (num (-1)) (VStr "")
    (num 1000) VUndefined sample_client
    = (sample_client, Throw AssertionError).
Proof.
  split; [|split].
  - apply (proj1 (createSidechainDeposit_dispatch sample_imports 0 "" (num 1000)
                    VUndefined (num 1000) TypeError sample_client));
      [lia | reflexivity].
  - apply (proj1 (proj2 (createSidechainDeposit_dispatch sample_imports 0 ""
                           (VStr "1000") VUndefined VNull (HostError "Amount")
                           sample_client)));
      [lia | reflexivity].
  - apply (proj2 (proj2 (createSidechainDeposit_dispatch sample_imports (-1) ""
                           (num 1000) VUndefined VNull TypeError sample_client))).
    lia.
Defined.

(** X11. createSidechainProposal, for integers and strings, when this
    node's own sidechain number is the integer [own]: the proposal goes out,
    with the node's build hashes in the last two places, exactly when
    [sidechain >= own] and [version >= 0]; otherwise the assertion error is
    thrown to the caller and nothing goes out. *)
Theorem createSidechainProposal_checks env (own s v : Z) (name desc a b : string)
    (w : world MainchainClient.instance) :
  member (common env) "THIS_SIDECHAIN" = num own ->
  (own <= s -> 0 <= v ->
   sends "createsidechainproposal"
     [num s; VStr name; VStr desc; num v;
      member (consensus env) "SIDECHAIN_BUILD_TAR_HASH";
      member (consensus env) "SIDECHAIN_BUILD_COMMIT_HASH"] w
     (MainchainClient.createSidechainProposal env (num s) (VStr name) (VStr desc)
        (num v) (VStr a) (VStr b) w)) /\
  (s < own \/ v < 0 ->
   MainchainClient.createSidechainProposal env (num s) (VStr name) (VStr desc)
     (num v) (VStr a) (VStr b) w = (w, Throw AssertionError)).
Proof.
  intros Hown. unfold MainchainClient.createSidechainProposal. rewrite Hown.
  rewrite (bind_normal _ _ _ _ _ (ge_integers env s own w)).
  change (String.eqb (typeof (VStr name)) "string") with true.
  change (String.eqb (typeof (VStr desc)) "string") with true.
  change (String.eqb (typeof (VStr a)) "string") with true.
  change (String.eqb (typeof (VStr b)) "string") with true.
  split.
  - intros Hs Hv. apply Z.leb_le in Hs, Hv. rewrite Hs, !assert_true.
    rewrite (bind_normal _ _ _ _ _ (ge_integer_zero env v w)), Hv, !assert_true.
    now apply sends_execute.
  - intros [Hs|Hv].
    + apply Z.leb_gt in Hs. now rewrite Hs, assert_false.
    + destruct (own <=? s); [|now rewrite assert_false].
      apply Z.leb_gt in Hv. rewrite !assert_true.
      now rewrite (bind_normal _ _ _ _ _ (ge_integer_zero env v w)), Hv, assert_false.
Qed.

Lemma createSidechainProposal_checks_witness :
  sends "createsidechainproposal"
    [num 0; VStr "testchain"; VStr ""; num 0; VStr "tar"; VStr "commit"]
    sample_client
    (MainchainClient.createSidechainProposal sample_imports (num 0)
       (VStr "testchain") (VStr "") (num 0) (VStr a64) (VStr b64) sample_client) /\
  MainchainClient.createSidechainProposal sample_imports (num (-1))
    (VStr "testchain") (VStr "") (num 0) (VStr a64) (VStr b64) sample_client
    = (sample_client, Throw AssertionError).
Proof.
  split.
  - apply (proj1 (createSidechainProposal_checks sample_imports 0 0 0 "testchain"
                    "" a64 b64 sample_client eq_refl)); lia.
  - apply (proj2 (createSidechainProposal_checks sample_imports 0 (-1) 0
                    "testchain" "" a64 b64 sample_client eq_refl)).
    left. lia.
Defined.

(** X12. open() dispatches nothing and changes nothing; the promise it
    returns is fulfilled with the client itself (here: when the address of
    the client is that of no promise and is not free). *)
Theorem open_resolves_to_client (w : world MainchainClient.instance) :
  promises (rt w) !! MainchainClient.self (this w) = None ->
  MainchainClient.self (this w) <> next_addr (rt w) ->
  exists p,
    snd (MainchainClient.open w) = Normal p /\
    this (fst (MainchainClient.open w)) = this w /\
    dispatched (rt (fst (MainchainClient.open w))) = dispatched (rt w) /\
    forall reply,
      outcome_of 2 reply (promises (rt (fst (MainchainClient.open w)))) p
      = Some (Fulfilled (MainchainClient.as_value (this w))).
Proof.
  intros Hp Hn. rewrite open_returns_client, new_promise_run. eexists.
  split; [reflexivity|]. split; [reflexivity|]. split; [reflexivity|].
  intros reply. cbn -[lookup insert]. rewrite lookup_insert_eq.
  unfold MainchainClient.as_value at 1. cbn -[lookup insert].
  rewrite lookup_insert_ne by congruence. now rewrite Hp.
Qed.

Lemma open_resolves_to_client_witness :
  exists p,
    snd (MainchainClient.open sample_client) = Normal p /\
    this (fst (MainchainClient.open sample_client)) = this sample_client /\
    dispatched (rt (fst (MainchainClient.open sample_client)))
      = dispatched (rt sample_client) /\
    forall reply,
      outcome_of 2 reply
        (promises (rt (fst (MainchainClient.open sample_client)))) p
      = Some (Fulfilled (MainchainClient.as_value (this sample_client))).
Proof.
  apply (open_resolves_to_client sample_client);
    [vm_compute; reflexivity | vm_compute; discriminate].
Defined.

(** * Further properties of the options and of the entries *)

(** ** MainchainOptions *)

(** X13. Without options (any falsy argument) and with a network to take
    the port from, new MainchainOptions() has exactly the defaults: the
    regtest network, its mainchainPort, a fresh headers object
    {Content-Type: application/json}, "localhost", "user" and "password". *)
Theorem MainchainOptions_defaults_without_options env (opts : value)
    (u : world unit) :
  truthy opts = false ->
  not_nullish (regtest env) = true ->
  exists port,
    get_prop (regtest env) "mainchainPort" = Normal port /\
    MainchainOptions.constructor env opts u =
      ({| this := tt; rt := set_next_addr (S (next_addr (rt u))) (rt u) |},
       Normal {| MainchainOptions.network := regtest env;
                 MainchainOptions.port := port;
                 MainchainOptions.headers :=
                   VObj (next_addr (rt u)) false
                     {[ "Content-Type" := VStr "application/json" ]};
                 MainchainOptions.host := VStr "localhost";
                 MainchainOptions.username := VStr "user";
                 MainchainOptions.password := VStr "password" |}).
Proof.
  intros Ht Hn. unfold MainchainOptions.constructor. rewrite Ht.
  destruct u as [[] r].
  destruct (regtest env) as [| | | | | | |x c props]; try discriminate Hn;
    eexists; (split; [reflexivity|]); reflexivity.
Qed.

Lemma MainchainOptions_defaults_without_options_witness :
  exists port,
    get_prop (regtest sample_imports) "mainchainPort" = Normal port /\
    MainchainOptions.constructor sample_imports (VStr "") nowhere =
      ({| this := tt; rt := set_next_addr 3 initial_runtime |},
       Normal {| MainchainOptions.network := regtest sample_imports;
                 MainchainOptions.port := port;
                 MainchainOptions.headers :=
                   VObj 2 false {[ "Content-Type" := VStr "application/json" ]};
                 MainchainOptions.host := VStr "localhost";
                 MainchainOptions.username := VStr "user";
                 MainchainOptions.password := VStr "password" |}).
Proof.
  apply (MainchainOptions_defaults_without_options sample_imports (VStr "") nowhere);
    reflexivity.
Defined.

(** X14. The static factory MainchainOptions.fromOptions(options) does
    exactly what new MainchainOptions(options) does for every truthy
    argument: same options or same error, same objects created.  For a
    falsy argument the two differ: the constructor skips the merge and
    returns the defaults, the factory runs it and fails its first
    assertion. *)
Theorem MainchainOptions_static_fromOptions env (opts : value) (u : world unit) :
  (truthy opts = true ->
   MainchainOptions.static_fromOptions env opts u
   = MainchainOptions.constructor env opts u) /\
  (truthy opts = false -> not_nullish (regtest env) = true ->
   snd (MainchainOptions.static_fromOptions env opts u) = Throw AssertionError).
Proof.
  unfold MainchainOptions.static_fromOptions, MainchainOptions.constructor.
  change (truthy VUndefined) with false. destruct u as [[] r]. split.
  - intros Ht. rewrite Ht.
    destruct (regtest env) as [| | | | | | |x c props]; reflexivity.
  - intros Ht Hn. unfold MainchainOptions.fromOptions. rewrite Ht.
    destruct (regtest env) as [| | | | | | |x c props]; try discriminate Hn;
      reflexivity.
Qed.

Lemma MainchainOptions_static_fromOptions_witness :
  MainchainOptions.static_fromOptions sample_imports
    (VObj 9 false {[ "port" := num 18332 ]}) nowhere
  = MainchainOptions.constructor sample_imports
      (VObj 9 false {[ "port" := num 18332 ]}) nowhere /\
  snd (MainchainOptions.static_fromOptions sample_imports VUndefined nowhere)
  = Throw AssertionError.
Proof.
  split.
  - apply (proj1 (MainchainOptions_static_fromOptions sample_imports
                    (VObj 9 false {[ "port" := num 18332 ]}) nowhere)).
    reflexivity.
  - apply (proj2 (MainchainOptions_static_fromOptions sample_imports VUndefined
                    nowhere)); reflexivity.
Defined.

(** X15. A merge into MainchainOptions forgets the options it is applied
    to: for a truthy argument, the options it leaves and the way it ends
    are the same whatever the fields were before, so the second of two
    merges decides alone.  For a falsy argument it throws the assertion
    error and leaves the options as they were. *)
Theorem MainchainOptions_merge_forgets_receiver (opts : value)
    (o o' : MainchainOptions.instance) (r : runtime) :
  (truthy opts = true ->
   MainchainOptions.fromOptions opts {| this := o; rt := r |}
   = MainchainOptions.fromOptions opts {| this := o'; rt := r |}) /\
  (truthy opts = false ->
   MainchainOptions.fromOptions opts {| this := o; rt := r |}
   = ({| this := o; rt := r |}, Throw AssertionError)).
Proof.
  unfold MainchainOptions.fromOptions. split; intros Ht; rewrite Ht.
  - destruct opts as [| | | | | | |a c props]; try discriminate Ht; reflexivity.
  - reflexivity.
Qed.

Lemma MainchainOptions_merge_forgets_receiver_witness :
  MainchainOptions.fromOptions (VObj 9 false {[ "port" := num 18332 ]})
    {| this := MainchainOptions.blank; rt := initial_runtime |}
  = MainchainOptions.fromOptions (VObj 9 false {[ "port" := num 18332 ]})
      {| this := MainchainOptions.set_host (VStr "node1") MainchainOptions.blank;
         rt := initial_runtime |} /\
  MainchainOptions.fromOptions (num 0)
    {| this := MainchainOptions.blank; rt := initial_runtime |}
  = ({| this := MainchainOptions.blank; rt := initial_runtime |},
     Throw AssertionError).
Proof.
  split.
  - apply (proj1 (MainchainOptions_merge_forgets_receiver
                    (VObj 9 false {[ "port" := num 18332 ]})
                    MainchainOptions.blank
                    (MainchainOptions.set_host (VStr "node1") MainchainOptions.blank)
                    initial_runtime)).
    reflexivity.
  - apply (proj2 (MainchainOptions_merge_forgets_receiver (num 0)
                    MainchainOptions.blank MainchainOptions.blank
                    initial_runtime)).
    reflexivity.
Defined.

(** ** SidechainObject *)

(** A merge that goes through had no hash to take: options with a hash
    make it throw. *)
Lemma SidechainObject_fromOptions_no_hash env (a : nat) c
    (props : gmap string value) (o : SidechainObject.instance) r w' e :
  SidechainObject.fromOptions env (VObj a c props) {| this := o; rt := r |}
    = (w', Normal e) ->
  not_nullish (member props "hash") = false.
Proof.
  unfold SidechainObject.fromOptions, read, lift, get_prop.
  change (default VUndefined (props !! "sidechain")) with (member props "sidechain").
  change (default VUndefined (props !! "hash")) with (member props "hash").
  change (default VUndefined (props !! "script")) with (member props "script").
  change (default VUndefined (props !! "type")) with (member props "type").
  change (default VUndefined (props !! "version")) with (member props "version").
  generalize (member props "sidechain") (member props "hash")
    (member props "script") (member props "type") (member props "version").
  intros v1 v2 v3 v4 v5.
  unfold when, bind, assert, assign, modify, ret, throw, get_state,
    SidechainObject.identifier.
  destruct (not_nullish v2); [|reflexivity].
  branches H.
Qed.

Lemma SidechainObject_fromOptions_hash_nullish env (opts : value)
    (o : SidechainObject.instance) r w' e :
  SidechainObject.fromOptions env opts {| this := o; rt := r |} = (w', Normal e) ->
  not_nullish (SidechainObject.hash (this w')) = false.
Proof.
  intros H. destruct opts as [| | | | | | |a c props].
  1-7: vm_compute in H; try discriminate H; injection H as <- <-; reflexivity.
  destruct (SidechainObject_fromOptions_overwrites _ _ _ _ _ _ _ _ H) as [-> ->].
  simpl. eapply SidechainObject_fromOptions_no_hash. exact H.
Qed.

(** X16. In SidechainObject the last merge wins, for any argument: if
    merging some options into one entry goes through, merging them into any
    other entry goes through as well and leaves the very same entry.
    Nothing of what the entry held before survives a merge. *)
Theorem SidechainObject_last_merge_wins env (opts : value)
    (o o' : SidechainObject.instance) (r : runtime) w' e :
  SidechainObject.fromOptions env opts {| this := o; rt := r |} = (w', Normal e) ->
  SidechainObject.fromOptions env opts {| this := o'; rt := r |}
  = ({| this := e; rt := r |}, Normal e).
Proof.
  unfold SidechainObject.fromOptions.
  destruct opts as [| | | | | | |a c props]; try discriminate;
    try (intros [= <- <-]; reflexivity).
  unfold read, lift, get_prop.
  change (default VUndefined (props !! "sidechain")) with (member props "sidechain").
  change (default VUndefined (props !! "hash")) with (member props "hash").
  change (default VUndefined (props !! "script")) with (member props "script").
  change (default VUndefined (props !! "type")) with (member props "type").
  change (default VUndefined (props !! "version")) with (member props "version").
  generalize (member props "sidechain") (member props "hash")
    (member props "script") (member props "type") (member props "version").
  intros v1 v2 v3 v4 v5.
  unfold when, bind, assert, assign, modify, ret, throw, get_state,
    SidechainObject.identifier.
  branches H; injection H as <- <-; reflexivity.
Qed.

Lemma SidechainObject_last_merge_wins_witness :
  SidechainObject.fromOptions sample_imports (VObj 9 false {[ "type" := num 2 ]})
    {| this := SidechainObject.set_sidechain (num 3) SidechainObject.blank;
       rt := initial_runtime |}
  = ({| this := SidechainObject.set_type (num 2) SidechainObject.blank;
        rt := initial_runtime |},
     Normal (SidechainObject.set_type (num 2) SidechainObject.blank)).
Proof.
  apply (SidechainObject_last_merge_wins sample_imports
           (VObj 9 false {[ "type" := num 2 ]}) SidechainObject.blank
           (SidechainObject.set_sidechain (num 3) SidechainObject.blank)
           initial_runtime
           {| this := SidechainObject.set_type (num 2) SidechainObject.blank;
              rt := initial_runtime |}).
  vm_compute. reflexivity.
Defined.

(** The two kinds of entry that the constructor returns. *)
Lemma SidechainObject_constructor_cases env (opts : value) (u u' : world unit)
    (e : SidechainObject.instance) :
  SidechainObject.constructor env opts u = (u', Normal e) ->
  if truthy opts
  then not_nullish (SidechainObject.hash e) = false
  else e = {| SidechainObject.sidechain := member (common env) "THIS_SIDECHAIN";
              SidechainObject.hash := EMPTY env;
              SidechainObject.script :=
                VObj (next_addr (rt u)) false (Script_prototype env);
              SidechainObject.type := num (-1);
              SidechainObject.version := num (-1) |}.
Proof.
  unfold SidechainObject.constructor. intros H.
  apply construct_inv_normal in H as (w & H & ->).
  apply bind_inv_normal in H as (w1 & [] & [= <-] & H).
  apply bind_inv_normal in H as (w2 & [] & [= <-] & H).
  apply bind_inv_normal in H as (w3 & s & [= <- <-] & H).
  apply bind_inv_normal in H as (w4 & [] & [= <-] & H).
  apply bind_inv_normal in H as (w5 & [] & [= <-] & H).
  apply bind_inv_normal in H as (w6 & [] & [= <-] & H).
  unfold when in H. destruct (truthy opts).
  - apply bind_inv_normal in H as (w7 & e7 & E & [= <-]).
    eapply SidechainObject_fromOptions_hash_nullish. exact E.
  - injection H as <-. reflexivity.
Qed.

(** X17. What new SidechainObject(options) can hold.  Without options (a
    falsy argument) it is the default entry: this node's sidechain number,
    the empty buffer, a fresh script, type -1 and version -1.  With options
    (a truthy argument) that it accepts, its hash is [undefined] or [null]:
    no entry ever takes a hash from its options. *)
Theorem SidechainObject_constructor_hash env (opts : value) (u u' : world unit)
    (e : SidechainObject.instance) :
  SidechainObject.constructor env opts u = (u', Normal e) ->
  if truthy opts
  then not_nullish (SidechainObject.hash e) = false
  else e = {| SidechainObject.sidechain := member (common env) "THIS_SIDECHAIN";
              SidechainObject.hash := EMPTY env;
              SidechainObject.script :=
                VObj (next_addr (rt u)) false (Script_prototype env);
              SidechainObject.type := num (-1);
              SidechainObject.version := num (-1) |}.
Proof. apply SidechainObject_constructor_cases. Qed.

Lemma SidechainObject_constructor_hash_witness :
  not_nullish
    (SidechainObject.hash
       {| SidechainObject.sidechain := num 3;
          SidechainObject.hash := VUndefined;
          SidechainObject.script := VUndefined;
          SidechainObject.type := num 1;
          SidechainObject.version := VUndefined |}) = false.
Proof.
  apply (SidechainObject_constructor_hash sample_imports
           (VObj 9 false {[ "sidechain" := num 3; "type" := num 1 ]}) nowhere
           {| this := tt; rt := set_next_addr 3 initial_runtime |}).
  vm_compute. reflexivity.
Defined.

(** ** The constructor of the client *)

(** What new MainchainOptions(options) returns for an options object is
    read off the object, name by name. *)
Lemma MainchainOptions_constructor_from_object {U} env a c
    (props : gmap string value) (s s' : world U) (o : MainchainOptions.instance) :
  MainchainOptions.constructor env (VObj a c props) s = (s', Normal o) ->
  o = {| MainchainOptions.network := member props "network";
         MainchainOptions.port := member props "port";
         MainchainOptions.headers := member props "headers";
         MainchainOptions.host := member props "host";
         MainchainOptions.username := member props "username";
         MainchainOptions.password := member props "password" |}.
Proof.
  unfold MainchainOptions.constructor. intros H.
  apply construct_inv_normal in H as (w & H & ->).
  apply bind_inv_normal in H as (w1 & [] & _ & H).
  apply bind_inv_normal in H as (w2 & p & _ & H).
  apply bind_inv_normal in H as (w3 & [] & _ & H).
  apply bind_inv_normal in H as (w4 & h & _ & H).
  apply bind_inv_normal in H as (w5 & [] & _ & H).
  apply bind_inv_normal in H as (w6 & [] & _ & H).
  apply bind_inv_normal in H as (w7 & [] & _ & H).
  apply bind_inv_normal in H as (w8 & [] & _ & H).
  change (truthy (VObj a c props)) with true in H. unfold when in H.
  apply bind_inv_normal in H as (w9 & o & E & [= <-]).
  destruct w8 as [o8 r8].
  now destruct (MainchainOptions_fromOptions_overwrites _ _ _ _ _ _ _ E) as [-> ->].
Qed.

(** The fields and the socket of a new client are copies of its options. *)
Lemma MainchainClient_constructor_copies env (opts : value) (u u' : world unit)
    (c : MainchainClient.instance) :
  MainchainClient.constructor env opts u = (u', Normal c) ->
  (exists s s' : world MainchainClient.instance,
     MainchainOptions.constructor env opts s = (s', Normal (MainchainClient.options c))) /\
  MainchainClient.network c = MainchainOptions.network (MainchainClient.options c) /\
  MainchainClient.port c = MainchainOptions.port (MainchainClient.options c) /\
  MainchainClient.host c = MainchainOptions.host (MainchainClient.options c) /\
  MainchainClient.headers c = MainchainOptions.headers (MainchainClient.options c) /\
  MainchainClient.username c = MainchainOptions.username (MainchainClient.options c) /\
  MainchainClient.password c = MainchainOptions.password (MainchainClient.options c) /\
  get_prop (MainchainClient.socket c) "port"
    = Normal (MainchainOptions.port (MainchainClient.options c)).
Proof.
  unfold MainchainClient.constructor. intros H.
  apply bind_inv_normal in H as (u1 & a & [= <- <-] & H).
  apply construct_inv_normal in H as (w & H & ->).
  apply bind_inv_normal in H as (w1 & [] & [= <-] & H).
  apply bind_inv_normal in H as (w2 & [] & [= <-] & H).
  apply bind_inv_normal in H as (w3 & o & Ho & H).
  pose proof (keeps_construct (T := MainchainClient.instance)
                MainchainOptions.blank) as Hk.
  unfold MainchainOptions.constructor in Ho.
  match type of Ho with
  | construct _ ?body ?s = _ => specialize (Hk body s); rewrite Ho in Hk
  end.
  simpl in Hk. cbn in H. rewrite Hk in H. cbn in H. injection H as <-.
  split; [do 2 eexists; exact Ho|]. cbn -[lookup insert].
  repeat split. now rewrite lookup_insert_eq.
Qed.

(** X18. When new MainchainClient(options) succeeds, the client's options
    are those that new MainchainOptions(options) built, the fields network,
    port, host, headers, username and password of the client are equal to
    those of its options, and the socket's port has been set to the same
    port. *)
Theorem MainchainClient_constructor_mirrors_options env (opts : value)
    (u u' : world unit) (c : MainchainClient.instance) :
  MainchainClient.constructor env opts u = (u', Normal c) ->
  (exists s s' : world MainchainClient.instance,
     MainchainOptions.constructor env opts s = (s', Normal (MainchainClient.options c))) /\
  MainchainClient.network c = MainchainOptions.network (MainchainClient.options c) /\
  MainchainClient.port c = MainchainOptions.port (MainchainClient.options c) /\
  MainchainClient.host c = MainchainOptions.host (MainchainClient.options c) /\
  MainchainClient.headers c = MainchainOptions.headers (MainchainClient.options c) /\
  MainchainClient.username c = MainchainOptions.username (MainchainClient.options c) /\
  MainchainClient.password c = MainchainOptions.password (MainchainClient.options c) /\
  get_prop (MainchainClient.socket c) "port"
    = Normal (MainchainOptions.port (MainchainClient.options c)).
Proof. apply MainchainClient_constructor_copies. Qed.

Lemma MainchainClient_constructor_mirrors_options_witness :
  MainchainClient.port (this sample_client) = num 18443 /\
  MainchainClient.host (this sample_client) = VStr "localhost" /\
  get_prop (MainchainClient.socket (this sample_client)) "port"
    = Normal (num 18443).
Proof.
  destruct (MainchainClient_constructor_mirrors_options sample_imports VUndefined
              nowhere
              (fst (MainchainClient.constructor sample_imports VUndefined nowhere))
              (this sample_client))
    as (_ & _ & Hport & Hhost & _ & _ & _ & Hsocket);
    [vm_compute; reflexivity|].
  rewrite Hport, Hhost, Hsocket. vm_compute. repeat split.
Defined.

(** X19. A client built from an options object has its network, port,
    host, headers, username and password straight from the object, and
    [undefined] for each one the object lacks; so has the port of its
    socket.  No default stands once options are given. *)
Theorem MainchainClient_fields_from_options env a k
    (props : gmap string value) (u u' : world unit)
    (c : MainchainClient.instance) :
  MainchainClient.constructor env (VObj a k props) u = (u', Normal c) ->
  MainchainClient.network c = member props "network" /\
  MainchainClient.port c = member props "port" /\
  MainchainClient.host c = member props "host" /\
  MainchainClient.headers c = member props "headers" /\
  MainchainClient.username c = member props "username" /\
  MainchainClient.password c = member props "password" /\
  get_prop (MainchainClient.socket c) "port" = Normal (member props "port").
Proof.
  intros H.
  destruct (MainchainClient_constructor_copies _ _ _ _ _ H)
    as ((s & s' & Ho) & -> & -> & -> & -> & -> & -> & ->).
  apply MainchainOptions_constructor_from_object in Ho. rewrite Ho.
  repeat split.
Qed.

Lemma MainchainClient_fields_from_options_witness :
  exists u' c,
    MainchainClient.constructor sample_imports
      (VObj 9 false {[ "host" := VStr "node1"; "port" := num 18332 ]}) nowhere
      = (u', Normal c) /\
    MainchainClient.host c = VStr "node1" /\
    MainchainClient.port c = num 18332 /\
    MainchainClient.username c = VUndefined /\
    get_prop (MainchainClient.socket c) "port" = Normal (num 18332).
Proof.
  do 2 eexists. split; [vm_compute; reflexivity|].
  destruct (MainchainClient_fields_from_options sample_imports 9%nat false
              {[ "host" := VStr "node1"; "port" := num 18332 ]} nowhere
              (fst (MainchainClient.constructor sample_imports
                      (VObj 9 false {[ "host" := VStr "node1"; "port" := num 18332 ]})
                      nowhere))
              (this (match MainchainClient.constructor sample_imports
                             (VObj 9 false {[ "host" := VStr "node1";
                                              "port" := num 18332 ]}) nowhere with
                     | (u, Normal c) => {| this := c; rt := rt u |}
                     | (u, Throw _) => {| this := MainchainClient.blank 0; rt := rt u |}
                     end)))
    as (_ & Hport & Hhost & _ & Huser & _ & Hsocket);
    [vm_compute; reflexivity|].
  vm_compute in Hport, Hhost, Huser, Hsocket.
  repeat split; assumption.
Defined.

(** ** The other methods of SidechainObject *)

(** What new SidechainObject(options) returns for an options object is
    read off the object, name by name. *)
Lemma SidechainObject_constructor_from_object {U} env a c
    (props : gmap string value) (u u' : world U) (e : SidechainObject.instance) :
  SidechainObject.constructor env (VObj a c props) u = (u', Normal e) ->
  e = {| SidechainObject.sidechain := member props "sidechain";
         SidechainObject.hash := member props "hash";
         SidechainObject.script := member props "script";
         SidechainObject.type := member props "type";
         SidechainObject.version := member props "version" |}.
Proof.
  unfold SidechainObject.constructor. intros H.
  apply construct_inv_normal in H as (w & H & ->).
  apply bind_inv_normal in H as (w1 & [] & _ & H).
  apply bind_inv_normal in H as (w2 & [] & _ & H).
  apply bind_inv_normal in H as (w3 & s & _ & H).
  apply bind_inv_normal in H as (w4 & [] & _ & H).
  apply bind_inv_normal in H as (w5 & [] & _ & H).
  apply bind_inv_normal in H as (w6 & [] & _ & H).
  change (truthy (VObj a c props)) with true in H. unfold when in H.
  apply bind_inv_normal in H as (w7 & e7 & E & [= <-]).
  destruct w6 as [o6 r6].
  now destruct (SidechainObject_fromOptions_overwrites _ _ _ _ _ _ _ _ E) as [-> ->].
Qed.

(** X20. An entry built from an options object that holds no script has
    no script: getScript on it never returns.  It throws the assertion
    error when its argument is no buffer and a TypeError when it is one,
    and leaves the entry as it is; getHash on the same entry hands a buffer
    back unchanged. *)
Theorem getScript_without_script env invoke a c (props : gmap string value)
    (u u' : world unit) (e : SidechainObject.instance) (h : value) (r : runtime) :
  SidechainObject.constructor env (VObj a c props) u = (u', Normal e) ->
  not_nullish (member props "script") = false ->
  SidechainObjectMethods.getScript env invoke h {| this := e; rt := r |}
  = ({| this := e; rt := r |},
     Throw (if isBuffer env h then TypeError else AssertionError)) /\
  SidechainObjectMethods.getHash env h {| this := e; rt := r |}
  = ({| this := e; rt := r |},
     if isBuffer env h then Normal h else Throw AssertionError).
Proof.
  intros H Hs. apply SidechainObject_constructor_from_object in H. subst e.
  unfold SidechainObjectMethods.getScript, SidechainObjectMethods.getHash.
  destruct (isBuffer env h); [|split; reflexivity].
  rewrite !assert_true. split; [|reflexivity].
  cbn. now destruct (member props "script").
Qed.

Lemma getScript_without_script_witness :
  SidechainObjectMethods.getScript sample_imports (fun _ _ _ => Normal VUndefined)
    (EMPTY sample_imports)
    {| this := SidechainObject.set_type (num 1)
                 (SidechainObject.set_sidechain (num 3) SidechainObject.blank);
       rt := initial_runtime |}
  = ({| this := SidechainObject.set_type (num 1)
                  (SidechainObject.set_sidechain (num 3) SidechainObject.blank);
        rt := initial_runtime |},
     Throw TypeError).
Proof.
  apply (getScript_without_script sample_imports (fun _ _ _ => Normal VUndefined)
           9%nat false {[ "sidechain" := num 3; "type" := num 1 ]} nowhere
           {| this := tt; rt := set_next_addr 3 initial_runtime |}
           (SidechainObject.set_type (num 1)
              (SidechainObject.set_sidechain (num 3) SidechainObject.blank))
           (EMPTY sample_imports) initial_runtime);
    vm_compute; reflexivity.
Defined.

(** X21. The debug rendering of an entry that was built from options
    always throws: such an entry has no hash, so [this.hash.toString()]
    throws a TypeError, unless converting the sidechain number to a string
    has thrown already.  This holds for every conversion to string and for
    every behaviour of the methods called. *)
Theorem inspect_after_options_throws env ToString invoke (opts : value)
    (u u' : world unit) (e : SidechainObject.instance) (r : runtime) :
  truthy opts = true ->
  SidechainObject.constructor env opts u = (u', Normal e) ->
  SidechainObjectMethods.inspect ToString invoke {| this := e; rt := r |}
  = ({| this := e; rt := r |},
     Throw (match ToString (SidechainObject.sidechain e) with
            | Normal _ => TypeError
            | Throw err => err
            end)).
Proof.
  intros Ht H. pose proof (SidechainObject_constructor_cases _ _ _ _ _ H) as Hh.
  rewrite Ht in Hh. unfold SidechainObjectMethods.inspect.
  unfold bind at 1. cbn [get_state]. unfold bind at 1. unfold lift at 1.
  cbn [this]. destruct (ToString (SidechainObject.sidechain e)); [|reflexivity].
  unfold bind at 1. cbn [get_state]. unfold bind at 1. cbn [this].
  now destruct (SidechainObject.hash e).
Qed.

Lemma inspect_after_options_throws_witness :
  SidechainObjectMethods.inspect (fun _ => Normal "3")
    (fun _ _ _ => Normal (VStr ""))
    {| this := SidechainObject.set_type (num 1)
                 (SidechainObject.set_sidechain (num 3) SidechainObject.blank);
       rt := initial_runtime |}
  = ({| this := SidechainObject.set_type (num 1)
                  (SidechainObject.set_sidechain (num 3) SidechainObject.blank);
        rt := initial_runtime |},
     Throw TypeError).
Proof.
  apply (inspect_after_options_throws sample_imports (fun _ => Normal "3")
           (fun _ _ _ => Normal (VStr ""))
           (VObj 9 false {[ "sidechain" := num 3; "type" := num 1 ]}) nowhere
           {| this := tt; rt := set_next_addr 3 initial_runtime |}
           (SidechainObject.set_type (num 1)
              (SidechainObject.set_sidechain (num 3) SidechainObject.blank))
           initial_runtime);
    [reflexivity | vm_compute; reflexivity].
Defined.

(** ** The hash check of sendBMMRequest on values that are no strings *)

Lemma sendBMMRequest_run_checked env amount x x0 (n : number) (ch ph : value)
    (s : Z) (w : world MainchainClient.instance) :
  or_else (String.eqb (typeof ch) "string") (length_is ch 64) w = (w, Normal true) ->
  or_else (String.eqb (typeof ph) "string") (length_is ph 64) w = (w, Normal true) ->
  Amount_fromOptions env amount = Normal x ->
  Amount_fromOptions env (num 0) = Normal x0 ->
  0 <= s ->
  sends "createbmmcriticaldatatx"
    [Amount_toString env x; VNum n; ch; num s; ph] w
    (MainchainClient.sendBMMRequest env amount (VNum n) ch (num s) ph w).
Proof.
  intros Hc Hp H H0 Hs.
  unfold MainchainClient.sendBMMRequest.
  change (String.eqb (typeof (VNum n)) "number") with true.
  set (call := [Amount_toString env x; VNum n; ch; num s; ph]).
  assert (Hbody :
    exists w1,
      this w1 = this w /\ dispatched (rt w1) = dispatched (rt w) /\
      (assert true;;
       c <- or_else (String.eqb (typeof ch) "string") (length_is ch 64);;
       assert c;;
       c <- or_else (String.eqb (typeof ph) "string") (length_is ph 64);;
       assert c;;
       c <- ge env (num s) (num 0);; assert c;;
       amt <- MainchainClient.new_Amount env amount;;
       zero <- MainchainClient.new_Amount env (num 0);;
       amt <- (if strict_eq amt zero
               then MainchainClient.new_Amount env
                      (member (consensus env) "CRITICAL_DATA_AMT")
               else ret amt);;
       s0 <- MainchainClient.Amount_toString_of env amt;;
       execute "/" "createbmmcriticaldatatx"
         [s0; VNum n; ch; num s; ph]) w
      = execute "/" "createbmmcriticaldatatx" call w1).
  { exists {| this := this w;
              rt := set_next_addr (S (S (next_addr (rt w))))
                      (set_next_addr (S (next_addr (rt w))) (rt w)) |}.
    split; [|split]; cycle 2.
    - rewrite assert_true.
      rewrite (bind_normal _ _ _ _ _ Hc), assert_true.
      rewrite (bind_normal _ _ _ _ _ Hp), assert_true.
      rewrite (bind_normal _ _ _ _ _ (ge_integer_zero env s w)).
      replace (0 <=? s) with true by (symmetry; apply Z.leb_le; lia).
      rewrite assert_true.
      unfold MainchainClient.new_Amount. rewrite H, H0. cbn.
      rewrite (proj2 (Nat.eqb_neq _ _)) by lia.
      rewrite bind_ret.
      erewrite bind_normal by apply Amount_toString_of_new.
      reflexivity.
    - reflexivity.
    - reflexivity. }
  destruct Hbody as (w1 & Ht & Hd & Hbody).
  unfold async. rewrite Hbody, execute_run, !new_promise_run. eexists.
  split; [reflexivity|]. split; [exact Ht|]. simpl. rewrite Hd.
  split; [reflexivity|]. intros reply. rewrite lookup_insert_eq.
  rewrite lookup_insert_ne by lia. now rewrite lookup_insert_eq.
Qed.

(** X22. What sendBMMRequest makes of a critical hash that is no string
    (the height being a number).  [undefined] and [null] have no [length]
    to read: the promise is rejected with a TypeError, not with the
    assertion error.  A boolean, number, symbol or bigint fails the
    assertion.  An object whose [length] is 64, such as a buffer of 64 bytes
    or an array of 64 entries, passes the check and is sent on as the hash.
    Nothing is dispatched in the first two cases. *)
Theorem sendBMMRequest_hash_of_other_type env (amount : value) (n : number)
    (ch sidechain ph : value) (w : world MainchainClient.instance) :
  (not_nullish ch = false ->
   rejects_with TypeError w
     (MainchainClient.sendBMMRequest env amount (VNum n) ch sidechain ph w)) /\
  (not_nullish ch = true ->
   typeof ch <> "string" -> typeof ch <> "object" -> typeof ch <> "function" ->
   fails_validation w
     (MainchainClient.sendBMMRequest env amount (VNum n) ch sidechain ph w)) /\
  (forall a c props p s x x0,
     ch = VObj a c props -> member props "length" = num 64 ->
     ph = VStr p -> sidechain = num s -> 0 <= s ->
     Amount_fromOptions env amount = Normal x ->
     Amount_fromOptions env (num 0) = Normal x0 ->
     sends "createbmmcriticaldatatx"
       [Amount_toString env x; VNum n; ch; num s; ph] w
       (MainchainClient.sendBMMRequest env amount (VNum n) ch sidechain ph w)).
Proof.
  split; [|split].
  - intros Hn. unfold MainchainClient.sendBMMRequest.
    erewrite async_throw.
    + rewrite new_promise_run. eexists. split; [reflexivity|].
      repeat split. intros reply. apply outcome_rejected. simpl.
      apply lookup_insert_eq.
    + destruct ch; try discriminate Hn; reflexivity.
  - intros Hn H1 H2 H3. apply fails_async.
    destruct ch as [| | | | | | |a [] props]; try discriminate Hn;
      try reflexivity; exfalso;
      [apply H1 | apply H3 | apply H2]; reflexivity.
  - intros a c props p s x x0 -> Hlen -> -> Hs Hx Hx0.
    apply sendBMMRequest_run_checked with (x0 := x0); try assumption.
    + unfold or_else, length_is, read, lift, bind, ret, get_prop.
      fold (member props "length"). rewrite Hlen.
      now destruct c.
    + reflexivity.
Qed.

Lemma sendBMMRequest_hash_of_other_type_witness :
  rejects_with TypeError sample_client
    (MainchainClient.sendBMMRequest sample_imports (num 1000) (VNum (Finite 5))
       VUndefined (num 0) (VStr b64) sample_client) /\
  fails_validation sample_client
    (MainchainClient.sendBMMRequest sample_imports (num 1000) (VNum (Finite 5))
       (num 64) (num 0) (VStr b64) sample_client) /\
  sends "createbmmcriticaldatatx"
    [VStr "0.00001"; VNum (Finite 5); VObj 0 false {[ "length" := num 64 ]};
     num 0; VStr b64] sample_client
    (MainchainClient.sendBMMRequest sample_imports (num 1000) (VNum (Finite 5))
       (VObj 0 false {[ "length" := num 64 ]}) (num 0) (VStr b64) sample_client).
Proof.
  split; [|split].
  - apply (proj1 (sendBMMRequest_hash_of_other_type sample_imports (num 1000)
                    (Finite 5) VUndefined (num 0) (VStr b64) sample_client)).
    reflexivity.
  - apply (proj1 (proj2 (sendBMMRequest_hash_of_other_type sample_imports
                           (num 1000) (Finite 5) (num 64) (num 0) (VStr b64)
                           sample_client))); [reflexivity | | |]; discriminate.
  - apply (proj2 (proj2 (sendBMMRequest_hash_of_other_type sample_imports
                           (num 1000) (Finite 5)
                           (VObj 0 false {[ "length" := num 64 ]}) (num 0)
                           (VStr b64) sample_client))
             0%nat false {[ "length" := num 64 ]} b64 0 (num 1000) (num 0));
      reflexivity || lia.
Defined.
